(** * PDF Slicer: the application window, its settings and the edit engine

    A shallow embedding of [src/application/appwindow.cpp] and
    [src/application/settingsmanager.cpp], together with the backend they
    drive (Page, Command, CommandHistory, Document, PdfSaver), and the
    properties of the specification stated over it. *)

From stdpp Require Import base list strings gmap pretty.
From Stdlib Require Import ZArith Lia.
From Equations Require Import Equations.
From Equations.Prop Require Logic.

Set Default Proof Using "Type".
Local Open Scope Z_scope.

(** ** The backend: pages, commands, history, document *)

Module Backend.

(** Modelled from the spec: the Page entity (backend/page.hpp is not part of
    the sources).  A rotation is one of 0/90/180/270 degrees. *)
Inductive Rotation : Set := Deg0 | Deg90 | Deg180 | Deg270.

Inductive Direction : Set := Right | Left.

Definition degrees (r : Rotation) : Z :=
  match r with Deg0 => 0 | Deg90 => 90 | Deg180 => 180 | Deg270 => 270 end.

Definition clockwise (r : Rotation) : Rotation :=
  match r with
  | Deg0 => Deg90 | Deg90 => Deg180 | Deg180 => Deg270 | Deg270 => Deg0
  end.

Definition counterclockwise (r : Rotation) : Rotation :=
  match r with
  | Deg0 => Deg270 | Deg90 => Deg0 | Deg180 => Deg90 | Deg270 => Deg180
  end.

Record Page : Set := mkPage {
  page_index : nat;        (* identity: index into the source document *)
  page_rotation : Rotation;
  page_removed : bool
}.

(** Modelled from the spec: Page.rotate adds +90 or -90 degrees mod 360. *)
Definition rotate (dir : Direction) (p : Page) : Page :=
  mkPage (page_index p)
         (match dir with
          | Right => clockwise (page_rotation p)
          | Left => counterclockwise (page_rotation p)
          end)
         (page_removed p).

Definition markRemoved (p : Page) : Page :=
  mkPage (page_index p) (page_rotation p) true.

Definition markRestored (p : Page) : Page :=
  mkPage (page_index p) (page_rotation p) false.

(** What a caller asks for: the operation kind and its targets, which are
    positions in the current visible sequence. *)
Inductive Request : Set :=
| ReqRemovePages (indices : list nat)
| ReqRemovePageRange (first last : Z)
| ReqRotatePagesRight (indices : list nat)
| ReqRotatePagesLeft (indices : list nat).

(** Modelled from the spec: a Command holds the kind, the targets and what
    it needs to reverse itself; for a removal, the removed Page entries with
    their original absolute positions. *)
Inductive Command : Set :=
| RemovePages (indices : list nat) (entries : list (nat * Page))
| RemovePageRange (first last : Z) (entries : list (nat * Page))
| RotatePagesRight (indices : list nat)
| RotatePagesLeft (indices : list nat).

Definition inIndices (indices : list nat) (k : nat) : bool :=
  bool_decide (k ∈ indices).

Definition inRange (first last : Z) (k : nat) : bool :=
  bool_decide (first <= Z.of_nat k <= last).

(** The entries a removal takes out, lowest position first; [k] is the
    absolute position of the head of [ps]. *)
Fixpoint capture (sel : nat -> bool) (k : nat) (ps : list Page)
  : list (nat * Page) :=
  match ps with
  | [] => []
  | p :: rest =>
      if sel k then (k, markRemoved p) :: capture sel (S k) rest
      else capture sel (S k) rest
  end.

(** The pages a removal leaves, in their relative order. *)
Fixpoint survivors (sel : nat -> bool) (k : nat) (ps : list Page)
  : list Page :=
  match ps with
  | [] => []
  | p :: rest =>
      if sel k then survivors sel (S k) rest
      else p :: survivors sel (S k) rest
  end.

Definition insertAt (k : nat) (p : Page) (ps : list Page) : list Page :=
  take k ps ++ p :: drop k ps.

(** Reinsertion at the recorded absolute positions, lowest first. *)
Definition reinsert (entries : list (nat * Page)) (ps : list Page)
  : list Page :=
  foldl (fun acc e => insertAt (fst e) (markRestored (snd e)) acc) ps entries.

Fixpoint rotateAt (sel : nat -> bool) (dir : Direction) (k : nat)
         (ps : list Page) : list Page :=
  match ps with
  | [] => []
  | p :: rest =>
      (if sel k then rotate dir p else p) :: rotateAt sel dir (S k) rest
  end.

(** Command construction against the current page sequence. *)
Definition construct (r : Request) (ps : list Page) : Command :=
  match r with
  | ReqRemovePages idx => RemovePages idx (capture (inIndices idx) 0 ps)
  | ReqRemovePageRange a b =>
      RemovePageRange a b (capture (inRange a b) 0 ps)
  | ReqRotatePagesRight idx => RotatePagesRight idx
  | ReqRotatePagesLeft idx => RotatePagesLeft idx
  end.

Definition apply (c : Command) (ps : list Page) : list Page :=
  match c with
  | RemovePages idx _ => survivors (inIndices idx) 0 ps
  | RemovePageRange a b _ => survivors (inRange a b) 0 ps
  | RotatePagesRight idx => rotateAt (inIndices idx) Right 0 ps
  | RotatePagesLeft idx => rotateAt (inIndices idx) Left 0 ps
  end.

Definition reverse (c : Command) (ps : list Page) : list Page :=
  match c with
  | RemovePages _ entries => reinsert entries ps
  | RemovePageRange _ _ entries => reinsert entries ps
  | RotatePagesRight idx => rotateAt (inIndices idx) Left 0 ps
  | RotatePagesLeft idx => rotateAt (inIndices idx) Right 0 ps
  end.

(** Modelled from the spec: the error taxonomy.  SaveFailed is not in it: a
    failed save is reported by a signal, see [App.Dispatcher]. *)
Inductive Error : Set := OpenError | NoHistoryError | AlreadySavingError.

(** Modelled from the spec: CommandHistory, two stacks with the most recent
    command at the head. *)
Record CommandHistory : Set := mkHistory {
  applied : list Command;
  undone : list Command
}.

Record Document : Set := mkDocument {
  pages : list Page;
  history : CommandHistory;
  basename : string
}.

Definition canUndo (d : Document) : bool :=
  match applied (history d) with [] => false | _ :: _ => true end.

Definition canRedo (d : Document) : bool :=
  match undone (history d) with [] => false | _ :: _ => true end.

(** Modelled from the spec: execute applies the command, pushes it on the
    applied stack and clears the undone stack. *)
Definition execute (c : Command) (d : Document) : Document :=
  mkDocument (apply c (pages d))
             (mkHistory (c :: applied (history d)) [])
             (basename d).

Definition undo (d : Document) : Error + Document :=
  match applied (history d) with
  | [] => inl NoHistoryError
  | c :: rest =>
      inr (mkDocument (reverse c (pages d))
                      (mkHistory rest (c :: undone (history d)))
                      (basename d))
  end.

Definition redo (d : Document) : Error + Document :=
  match undone (history d) with
  | [] => inl NoHistoryError
  | c :: rest =>
      inr (mkDocument (apply c (pages d))
                      (mkHistory (c :: applied (history d)) rest)
                      (basename d))
  end.

(** Whether a request names no target at all. *)
Definition emptyRequest (r : Request) : bool :=
  match r with
  | ReqRemovePages idx | ReqRotatePagesRight idx | ReqRotatePagesLeft idx =>
      match idx with [] => true | _ => false end
  | ReqRemovePageRange a b => bool_decide (b < a)
  end.

(** Modelled from the spec: the Document edit operations construct the
    command and execute it; with no target they do nothing, silently.  The
    boolean tells whether the change notification (commandExecuted) was
    emitted. *)
Definition edit (r : Request) (d : Document) : Document * bool :=
  if emptyRequest r then (d, false)
  else (execute (construct r (pages d)) d, true).

Definition removePages (indices : list nat) := edit (ReqRemovePages indices).
Definition removePageRange (first last : Z) :=
  edit (ReqRemovePageRange first last).
Definition rotatePagesRight (indices : list nat) :=
  edit (ReqRotatePagesRight indices).
Definition rotatePagesLeft (indices : list nat) :=
  edit (ReqRotatePagesLeft indices).

Definition undoCommand (d : Document) : Error + Document := undo d.
Definition redoCommand (d : Document) : Error + Document := redo d.

(** A file as the dialogs hand it over: its path, what a reader finds in it
    (the number of pages, or nothing when unreadable or corrupt) and whether
    it can be written. *)
Record File : Set := mkFile {
  file_path : string;
  file_pages : option nat;
  file_writable : bool
}.

(** Modelled from the spec: opening is all-or-nothing and fails with
    OpenError on an unreadable or corrupt source. *)
Definition open (f : File) : Error + Document :=
  match file_pages f with
  | None => inl OpenError
  | Some n =>
      inr (mkDocument (map (fun i => mkPage i Deg0 false) (seq 0 n))
                      (mkHistory [] [])
                      (file_path f))
  end.

(** Modelled from the spec: PdfSaver (pdfsaver.hpp is not part of the
    sources) persists the current page sequence with rotations and removals
    applied; an unwritable destination makes it fail. *)
Definition Bytes : Set := list (nat * Rotation).

Definition render (d : Document) : Bytes :=
  map (fun p => (page_index p, page_rotation p))
      (filter (fun p => page_removed p = false) (pages d)).

Definition save (d : Document) (dest : File) : option Bytes :=
  if file_writable dest then Some (render d) else None.

(** Undoing until nothing is left to undo. *)
Equations? undoAll (d : Document) : Document
  by wf (length (applied (history d))) lt :=
  undoAll d with Logic.inspect (undo d) := {
    | exist _ (inr d') Hundo => undoAll d'
    | exist _ (inl _) Hundo => d
  }.
Proof.
  unfold undo in Hundo. destruct (applied (history d)) as [|c rest].
  - discriminate Hundo.
  - injection Hundo as <-. simpl. lia.
Qed.

(** The operations of an editing session. *)
Inductive EditOp : Set :=
| OpEdit (r : Request)
| OpUndo
| OpRedo.

Definition perform (op : EditOp) (d : Document) : Document :=
  match op with
  | OpEdit r => fst (edit r d)
  | OpUndo => match undoCommand d with inr d' => d' | inl _ => d end
  | OpRedo => match redoCommand d with inr d' => d' | inl _ => d end
  end.

Definition performAll (ops : list EditOp) (d : Document) : Document :=
  foldl (fun acc op => perform op acc) d ops.

(** A page sequence as a Document shows it: no page in it is removed. *)
Definition visible (ps : list Page) : Prop :=
  Forall (fun p => page_removed p = false) ps.

End Backend.

(** ** Settings: the window state kept in the key file *)

Module Settings.

Record WindowState : Set := mkWindowState {
  width : Z;
  height : Z;
  isMaximized : bool
}.

(** The constants of namespace window_state. *)
Definition groupName : string := "window-state".
Definition keys_width : string := "width".
Definition keys_height : string := "height".
Definition keys_isMaximized : string := "is-maximized".
Definition defaultWindowState : WindowState := mkWindowState 800 600 false.

(** Glib::KeyFile holds raw strings under (group, key); how GLib reads a
    raw value as an integer or a boolean, and writes one, is the library's
    business and is taken as an interface. *)
Definition KeyFile : Type := gmap (string * string) string.

Class KeyFileCodec : Type := {
  parse_integer : string -> option Z;
  parse_boolean : string -> option bool;
  print_integer : Z -> string;
  print_boolean : bool -> string
}.

Section WithCodec.
Context `{codec : KeyFileCodec}.

(** [None] stands for the Glib::KeyFileError the getter throws when the
    group or key is absent or the value is malformed. *)
Definition get_integer (kf : KeyFile) (group key : string) : option Z :=
  kf !! (group, key) ≫= parse_integer.

Definition get_boolean (kf : KeyFile) (group key : string) : option bool :=
  kf !! (group, key) ≫= parse_boolean.

Definition set_integer (group key : string) (v : Z) (kf : KeyFile)
  : KeyFile := <[(group, key) := print_integer v]> kf.

Definition set_boolean (group key : string) (v : bool) (kf : KeyFile)
  : KeyFile := <[(group, key) := print_boolean v]> kf.

Record SettingsManager : Type := mkSettingsManager { m_keyFile : KeyFile }.

(** loadConfigFile: [onDisk] is what load_from_file finds, [None] when
    the file is missing or cannot be read; the exception is swallowed and
    the key file stays empty. *)
Definition loadConfigFile (onDisk : option KeyFile) : SettingsManager :=
  match onDisk with
  | Some kf => mkSettingsManager kf
  | None => mkSettingsManager ∅
  end.

(** The try block of loadWindowState: the first getter that throws
    abandons the block. *)
Definition readWindowState (kf : KeyFile) : option WindowState :=
  w ← get_integer kf groupName keys_width;
  h ← get_integer kf groupName keys_height;
  m ← get_boolean kf groupName keys_isMaximized;
  Some (mkWindowState w h m).

Definition loadWindowState (sm : SettingsManager) : WindowState :=
  match readWindowState (m_keyFile sm) with
  | Some result => result
  | None => defaultWindowState
  end.

Definition saveWindowState (ws : WindowState) (sm : SettingsManager)
  : SettingsManager :=
  mkSettingsManager
    (set_boolean groupName keys_isMaximized (isMaximized ws)
       (set_integer groupName keys_height (height ws)
          (set_integer groupName keys_width (width ws) (m_keyFile sm)))).

End WithCodec.

(** A codec for decimal numerals of a few digits, to run examples with. *)
Definition digitValue (c : Ascii.ascii) : option Z :=
  let n := Z.of_nat (Ascii.nat_of_ascii c) in
  if bool_decide (48 <= n <= 57) then Some (n - 48) else None.

Fixpoint parseDigits (acc : Z) (s : string) : option Z :=
  match s with
  | EmptyString => Some acc
  | String c rest =>
      match digitValue c with
      | Some v => parseDigits (10 * acc + v) rest
      | None => None
      end
  end.

Definition sampleParseInteger (s : string) : option Z :=
  match s with
  | EmptyString => None
  | String _ _ => parseDigits 0 s
  end.

Definition sampleParseBoolean (s : string) : option bool :=
  if bool_decide (s = "true") then Some true
  else if bool_decide (s = "false") then Some false
  else None.

Definition sampleCodec : KeyFileCodec :=
  {| parse_integer := sampleParseInteger;
     parse_boolean := sampleParseBoolean;
     print_integer := fun z => pretty z;
     print_boolean := fun b => if b then "true" else "false" |}.

End Settings.

(** ** The application window *)

Module App.
Import Backend Settings.

(** The actions the window adds; the first eleven are the ones whose
    enabled state the window manages. *)
Inductive Action : Set :=
| OpenAction | SaveAction | UndoAction | RedoAction
| RemoveSelectedAction | RemoveUnselectedAction
| RemovePreviousAction | RemoveNextAction
| RotateRightAction | RotateLeftAction | CancelSelectionAction
| ShortcutsAction | AboutAction.

(** The enabled flag of each managed action, under the member's name. *)
Record Actions : Set := mkActions {
  m_openAction : bool;
  m_saveAction : bool;
  m_undoAction : bool;
  m_redoAction : bool;
  m_removeSelectedAction : bool;
  m_removeUnselectedAction : bool;
  m_removePreviousAction : bool;
  m_removeNextAction : bool;
  m_rotateRightAction : bool;
  m_rotateLeftAction : bool;
  m_cancelSelectionAction : bool
}.

Definition set_enabled (a : Action) (b : bool) (acts : Actions) : Actions :=
  match a with
  | OpenAction =>
      mkActions b (m_saveAction acts) (m_undoAction acts) (m_redoAction acts)
        (m_removeSelectedAction acts) (m_removeUnselectedAction acts) (m_removePreviousAction acts) (m_removeNextAction acts)
        (m_rotateRightAction acts) (m_rotateLeftAction acts) (m_cancelSelectionAction acts)
  | SaveAction =>
      mkActions (m_openAction acts) b (m_undoAction acts) (m_redoAction acts)
        (m_removeSelectedAction acts) (m_removeUnselectedAction acts) (m_removePreviousAction acts) (m_removeNextAction acts)
        (m_rotateRightAction acts) (m_rotateLeftAction acts) (m_cancelSelectionAction acts)
  | UndoAction =>
      mkActions (m_openAction acts) (m_saveAction acts) b (m_redoAction acts)
        (m_removeSelectedAction acts) (m_removeUnselectedAction acts) (m_removePreviousAction acts) (m_removeNextAction acts)
        (m_rotateRightAction acts) (m_rotateLeftAction acts) (m_cancelSelectionAction acts)
  | RedoAction =>
      mkActions (m_openAction acts) (m_saveAction acts) (m_undoAction acts) b
        (m_removeSelectedAction acts) (m_removeUnselectedAction acts) (m_removePreviousAction acts) (m_removeNextAction acts)
        (m_rotateRightAction acts) (m_rotateLeftAction acts) (m_cancelSelectionAction acts)
  | RemoveSelectedAction =>
      mkActions (m_openAction acts) (m_saveAction acts) (m_undoAction acts) (m_redoAction acts) b (m_removeUnselectedAction acts) (m_removePreviousAction acts) (m_removeNextAction acts)
        (m_rotateRightAction acts) (m_rotateLeftAction acts) (m_cancelSelectionAction acts)
  | RemoveUnselectedAction =>
      mkActions (m_openAction acts) (m_saveAction acts) (m_undoAction acts) (m_redoAction acts)
        (m_removeSelectedAction acts) b (m_removePreviousAction acts) (m_removeNextAction acts)
        (m_rotateRightAction acts) (m_rotateLeftAction acts) (m_cancelSelectionAction acts)
  | RemovePreviousAction =>
      mkActions (m_openAction acts) (m_saveAction acts) (m_undoAction acts) (m_redoAction acts)
        (m_removeSelectedAction acts) (m_removeUnselectedAction acts) b (m_removeNextAction acts)
        (m_rotateRightAction acts) (m_rotateLeftAction acts) (m_cancelSelectionAction acts)
  | RemoveNextAction =>
      mkActions (m_openAction acts) (m_saveAction acts) (m_undoAction acts) (m_redoAction acts)
        (m_removeSelectedAction acts) (m_removeUnselectedAction acts) (m_removePreviousAction acts) b
        (m_rotateRightAction acts) (m_rotateLeftAction acts) (m_cancelSelectionAction acts)
  | RotateRightAction =>
      mkActions (m_openAction acts) (m_saveAction acts) (m_undoAction acts) (m_redoAction acts)
        (m_removeSelectedAction acts) (m_removeUnselectedAction acts) (m_removePreviousAction acts) (m_removeNextAction acts) b (m_rotateLeftAction acts) (m_cancelSelectionAction acts)
  | RotateLeftAction =>
      mkActions (m_openAction acts) (m_saveAction acts) (m_undoAction acts) (m_redoAction acts)
        (m_removeSelectedAction acts) (m_removeUnselectedAction acts) (m_removePreviousAction acts) (m_removeNextAction acts)
        (m_rotateRightAction acts) b (m_cancelSelectionAction acts)
  | CancelSelectionAction =>
      mkActions (m_openAction acts) (m_saveAction acts) (m_undoAction acts) (m_redoAction acts)
        (m_removeSelectedAction acts) (m_removeUnselectedAction acts) (m_removePreviousAction acts) (m_removeNextAction acts)
        (m_rotateRightAction acts) (m_rotateLeftAction acts) b
  | ShortcutsAction | AboutAction => acts
  end.

Definition get_enabled (a : Action) (acts : Actions) : bool :=
  match a with
  | OpenAction => m_openAction acts
  | SaveAction => m_saveAction acts
  | UndoAction => m_undoAction acts
  | RedoAction => m_redoAction acts
  | RemoveSelectedAction => m_removeSelectedAction acts
  | RemoveUnselectedAction => m_removeUnselectedAction acts
  | RemovePreviousAction => m_removePreviousAction acts
  | RemoveNextAction => m_removeNextAction acts
  | RotateRightAction => m_rotateRightAction acts
  | RotateLeftAction => m_rotateLeftAction acts
  | CancelSelectionAction => m_cancelSelectionAction acts
  | ShortcutsAction | AboutAction => true
  end.

Inductive Revealer : Set := Hidden | RevealSaving | RevealSaved.

Inductive Dialog : Set :=
| ErrorDialog (message : string)
| AboutDialogShown
| ShortcutsWindowShown.

(** The members of AppWindow that the handlers read or write.  Of m_view
    only the selected children are kept; its children are the pages of the
    document it shows. *)
Record AppWindow : Set := mkAppWindow {
  m_document : option Document;
  m_isSavingDocument : bool;
  m_windowState : WindowState;
  m_actions : Actions;
  m_view_selected : list nat;
  m_zoomLevel_enabled : bool;
  m_stack : string;
  m_headerBar_subtitle : string;
  m_savingRevealer : Revealer;
  presented : list Dialog;      (* dialogs shown so far, oldest first *)
  logged : list string;         (* Logger::logError lines, oldest first *)
  raised : list Error           (* faults that escaped a handler *)
}.

Definition with_document (d : option Document) (w : AppWindow) : AppWindow :=
  mkAppWindow d (m_isSavingDocument w) (m_windowState w) (m_actions w)
    (m_view_selected w) (m_zoomLevel_enabled w) (m_stack w)
    (m_headerBar_subtitle w) (m_savingRevealer w) (presented w) (logged w)
    (raised w).

Definition with_isSavingDocument (b : bool) (w : AppWindow) : AppWindow :=
  mkAppWindow (m_document w) b (m_windowState w) (m_actions w)
    (m_view_selected w) (m_zoomLevel_enabled w) (m_stack w)
    (m_headerBar_subtitle w) (m_savingRevealer w) (presented w) (logged w)
    (raised w).

Definition with_windowState (ws : WindowState) (w : AppWindow) : AppWindow :=
  mkAppWindow (m_document w) (m_isSavingDocument w) ws (m_actions w)
    (m_view_selected w) (m_zoomLevel_enabled w) (m_stack w)
    (m_headerBar_subtitle w) (m_savingRevealer w) (presented w) (logged w)
    (raised w).

Definition with_actions (acts : Actions) (w : AppWindow) : AppWindow :=
  mkAppWindow (m_document w) (m_isSavingDocument w) (m_windowState w) acts
    (m_view_selected w) (m_zoomLevel_enabled w) (m_stack w)
    (m_headerBar_subtitle w) (m_savingRevealer w) (presented w) (logged w)
    (raised w).

Definition with_selected (sel : list nat) (w : AppWindow) : AppWindow :=
  mkAppWindow (m_document w) (m_isSavingDocument w) (m_windowState w)
    (m_actions w) sel (m_zoomLevel_enabled w) (m_stack w)
    (m_headerBar_subtitle w) (m_savingRevealer w) (presented w) (logged w)
    (raised w).

Definition with_chrome (zoom : bool) (child subtitle : string)
           (w : AppWindow) : AppWindow :=
  mkAppWindow (m_document w) (m_isSavingDocument w) (m_windowState w)
    (m_actions w) (m_view_selected w) zoom child subtitle
    (m_savingRevealer w) (presented w) (logged w) (raised w).

Definition with_savingRevealer (r : Revealer) (w : AppWindow) : AppWindow :=
  mkAppWindow (m_document w) (m_isSavingDocument w) (m_windowState w)
    (m_actions w) (m_view_selected w) (m_zoomLevel_enabled w) (m_stack w)
    (m_headerBar_subtitle w) r (presented w) (logged w) (raised w).

Definition present (d : Dialog) (w : AppWindow) : AppWindow :=
  mkAppWindow (m_document w) (m_isSavingDocument w) (m_windowState w)
    (m_actions w) (m_view_selected w) (m_zoomLevel_enabled w) (m_stack w)
    (m_headerBar_subtitle w) (m_savingRevealer w) (presented w ++ [d])
    (logged w) (raised w).

Definition logError (line : string) (w : AppWindow) : AppWindow :=
  mkAppWindow (m_document w) (m_isSavingDocument w) (m_windowState w)
    (m_actions w) (m_view_selected w) (m_zoomLevel_enabled w) (m_stack w)
    (m_headerBar_subtitle w) (m_savingRevealer w) (presented w)
    (logged w ++ [line]) (raised w).

Definition raise (e : Error) (w : AppWindow) : AppWindow :=
  mkAppWindow (m_document w) (m_isSavingDocument w) (m_windowState w)
    (m_actions w) (m_view_selected w) (m_zoomLevel_enabled w) (m_stack w)
    (m_headerBar_subtitle w) (m_savingRevealer w) (presented w) (logged w)
    (raised w ++ [e]).

(** action->set_enabled(b) on the window. *)
Definition enable (a : Action) (b : bool) (w : AppWindow) : AppWindow :=
  with_actions (set_enabled a b (m_actions w)) w.

Definition enabled (a : Action) (w : AppWindow) : bool :=
  get_enabled a (m_actions w).

Definition enableAll (b : bool) (l : list Action) (w : AppWindow)
  : AppWindow := foldl (fun acc a => enable a b acc) w l.

(** What the window asks of m_view.  The view (view.hpp) is not part of the
    sources; what is kept of it is the list of selected child indexes, which
    only the view's own selectedPagesChanged reports change, and its children
    are taken to be the pages of the document it was given. *)
Definition getSelectedChildrenIndexes (w : AppWindow) : list nat :=
  m_view_selected w.

Definition numberOfPages (w : AppWindow) : nat :=
  match m_document w with Some d => length (pages d) | None => 0%nat end.

Definition getUnselectedChildrenIndexes (w : AppWindow) : list nat :=
  filter (fun i => i ∉ m_view_selected w) (seq 0 (numberOfPages w)).

(** The index of the selected child; only meaningful with exactly one
    child selected, which is when the window relies on it. *)
Definition getSelectedChildIndex (w : AppWindow) : Z :=
  match m_view_selected w with
  | i :: _ => Z.of_nat i
  | [] => -1
  end.

Definition on_delete_event (w : AppWindow) : bool := m_isSavingDocument w.

Definition disableEditingActions (w : AppWindow) : AppWindow :=
  enableAll false
    [OpenAction; SaveAction; UndoAction; RedoAction; RemoveSelectedAction;
     RemoveUnselectedAction; RemovePreviousAction; RemoveNextAction;
     RotateRightAction; RotateLeftAction; CancelSelectionAction] w.

(** The view and the document are read from [w]: enabling an action does
    not touch them. *)
Definition onSelectedPagesChanged (w : AppWindow) : AppWindow :=
  let numSelected := length (getSelectedChildrenIndexes w) in
  let w1 :=
    if bool_decide (numSelected = 0%nat) then
      enableAll false
        [RemoveSelectedAction; RemoveUnselectedAction; RemovePreviousAction;
         RemoveNextAction; RotateRightAction; RotateLeftAction;
         CancelSelectionAction] w
    else
      enableAll true
        [RemoveSelectedAction; RotateRightAction; RotateLeftAction;
         RemoveUnselectedAction; CancelSelectionAction] w in
  let w2 :=
    if bool_decide (numSelected = 1%nat) then
      let index := getSelectedChildIndex w in
      let w1' :=
        if bool_decide (index = 0) then enable RemovePreviousAction false w1
        else enable RemovePreviousAction true w1 in
      let numPages := Z.of_nat (numberOfPages w) in
      if bool_decide (index = numPages - 1)
      then enable RemoveNextAction false w1'
      else enable RemoveNextAction true w1'
    else w1 in
  if bool_decide (1 < numSelected)%nat then
    enable RemoveNextAction false (enable RemovePreviousAction false w2)
  else w2.

(** Reads the document; it is only ever called with one set. *)
Definition onCommandExecuted (w : AppWindow) : AppWindow :=
  match m_document w with
  | None => w
  | Some d =>
      let w1 :=
        if canUndo d then enable UndoAction true w
        else enable UndoAction false w in
      if canRedo d then enable RedoAction true w1
      else enable RedoAction false w1
  end.

Definition enableEditingActions (w : AppWindow) : AppWindow :=
  onCommandExecuted
    (onSelectedPagesChanged
       (enable SaveAction true (enable OpenAction true w))).

(** m_view.setDocument shows the new document's pages, none selected.
    The commandExecuted connection made here is what makes every edit below
    end in onCommandExecuted. *)
Definition setDocument (document : Document) (w : AppWindow) : AppWindow :=
  let w1 := with_selected [] w in
  let w2 := with_document (Some document) w1 in
  let w3 := with_chrome (m_zoomLevel_enabled w2) "editor"
                        (basename document) w2 in
  let w4 := enable SaveAction true w3 in
  with_chrome true (m_stack w4) (m_headerBar_subtitle w4) w4.

Definition tryOpenDocument (file : File) (w : AppWindow) : AppWindow :=
  let w1 := enable UndoAction false w in
  let w2 := enable RedoAction false w1 in
  match open file with
  | inr document => setDocument document w2
  | inl _ =>
      let w3 := logError "The file couldn't be opened" w2 in
      let w4 := logError ("Filepath: " +:+ file_path file) w3 in
      present (ErrorDialog "The selected file could not be opened") w4
  end.

(** An edit of the document followed, when the document emitted
    commandExecuted, by the connected handler. *)
Definition editDocument (op : Document -> Document * bool) (w : AppWindow)
  : AppWindow :=
  match m_document w with
  | None => w
  | Some d =>
      let '(d', emitted) := op d in
      let w' := with_document (Some d') w in
      if emitted then onCommandExecuted w' else w'
  end.

Definition historyStep (op : Document -> Error + Document) (w : AppWindow)
  : AppWindow :=
  match m_document w with
  | None => w
  | Some d =>
      match op d with
      | inr d' => onCommandExecuted (with_document (Some d') w)
      | inl e => raise e w
      end
  end.

Definition onUndoAction : AppWindow -> AppWindow := historyStep undoCommand.
Definition onRedoAction : AppWindow -> AppWindow := historyStep redoCommand.

Definition onRemoveSelectedPages (w : AppWindow) : AppWindow :=
  editDocument (removePages (getSelectedChildrenIndexes w)) w.

Definition onRemoveUnselectedPages (w : AppWindow) : AppWindow :=
  editDocument (removePages (getUnselectedChildrenIndexes w)) w.

(** The arguments onRemovePreviousPages and onRemoveNextPages pass to
    removePageRange. *)
Definition previousPagesRange (w : AppWindow) : Z * Z :=
  (0, getSelectedChildIndex w - 1).

Definition nextPagesRange (w : AppWindow) : Z * Z :=
  (getSelectedChildIndex w + 1, Z.of_nat (numberOfPages w) - 1).

Definition onRemovePreviousPages (w : AppWindow) : AppWindow :=
  editDocument
    (removePageRange (fst (previousPagesRange w)) (snd (previousPagesRange w)))
    w.

Definition onRemoveNextPages (w : AppWindow) : AppWindow :=
  editDocument
    (removePageRange (fst (nextPagesRange w)) (snd (nextPagesRange w))) w.

Definition onRotatePagesRight (w : AppWindow) : AppWindow :=
  editDocument (rotatePagesRight (getSelectedChildrenIndexes w)) w.

Definition onRotatePagesLeft (w : AppWindow) : AppWindow :=
  editDocument (rotatePagesLeft (getSelectedChildrenIndexes w)) w.

(** m_view.clearSelection; the view then reports the changed selection. *)
Definition onCancelSelection (w : AppWindow) : AppWindow :=
  onSelectedPagesChanged (with_selected [] w).

Definition onAboutAction (w : AppWindow) : AppWindow :=
  present AboutDialogShown w.

Definition onShortcutsAction (w : AppWindow) : AppWindow :=
  present ShortcutsWindowShown w.

Definition onSizeAllocate (maximized : bool) (w h : Z) (win : AppWindow)
  : AppWindow :=
  if maximized then win
  else with_windowState
         (mkWindowState w h (isMaximized (m_windowState win))) win.

Definition onWindowStateEvent (maximized : bool) (win : AppWindow)
  : AppWindow :=
  with_windowState
    (mkWindowState (width (m_windowState win)) (height (m_windowState win))
                   maximized) win.

(** *** The window together with its save threads and the main loop *)

(** The two Glib::Dispatcher members. *)
Inductive Dispatcher : Set := m_savedDispatcher | m_savingFailedDispatcher.

(** Where a save thread stands in the lambda of trySaveDocument. *)
Inductive Pc : Set :=
| AtSave          (* about to run PdfSaver{*m_document}.save(file) *)
| AtEmitSaved     (* save returned; about to emit m_savedDispatcher *)
| AtCatch         (* save threw; about to log and emit the failure *)
| AtClearFlag     (* about to run m_isSavingDocument = false *)
| Finished.

Record Worker : Set := mkWorker {
  w_file : File;
  w_pc : Pc;
  w_written : option Bytes;       (* what this save wrote, once it has *)
  w_emitted : list Dispatcher     (* every emit this thread made *)
}.

Record System : Type := mkSystem {
  window : AppWindow;
  threads : list Worker;
  mainLoop : list Dispatcher;     (* emitted, not yet delivered *)
  destroyed : bool;
  settings : SettingsManager
}.

Definition with_window (w : AppWindow) (s : System) : System :=
  mkSystem w (threads s) (mainLoop s) (destroyed s) (settings s).

Definition onWindow (f : AppWindow -> AppWindow) (s : System) : System :=
  with_window (f (window s)) s.

Definition with_threads (ts : list Worker) (s : System) : System :=
  mkSystem (window s) ts (mainLoop s) (destroyed s) (settings s).

Definition with_mainLoop (q : list Dispatcher) (s : System) : System :=
  mkSystem (window s) (threads s) q (destroyed s) (settings s).

(** trySaveDocument: the thread it starts captures [this] and [file]; it
    is appended to the running threads, about to save. *)
Definition trySaveDocument (file : File) (s : System) : System :=
  let w1 := with_savingRevealer RevealSaving (window s) in
  let w2 := disableEditingActions w1 in
  let w3 := with_isSavingDocument true w2 in
  with_threads (threads s ++ [mkWorker file AtSave None []])
               (with_window w3 s).

(** [chosen] is the file the dialog returned with GTK_RESPONSE_ACCEPT, if
    the user accepted. *)
Definition onSaveAction (chosen : option File) (s : System) : System :=
  match chosen with
  | Some file => trySaveDocument file s
  | None => s
  end.

Definition onOpenAction (chosen : option File) (s : System) : System :=
  match chosen with
  | Some file => onWindow (tryOpenDocument file) s
  | None => s
  end.

Definition handler (a : Action) (chosen : option File) (s : System)
  : System :=
  match a with
  | OpenAction => onOpenAction chosen s
  | SaveAction => onSaveAction chosen s
  | UndoAction => onWindow onUndoAction s
  | RedoAction => onWindow onRedoAction s
  | RemoveSelectedAction => onWindow onRemoveSelectedPages s
  | RemoveUnselectedAction => onWindow onRemoveUnselectedPages s
  | RemovePreviousAction => onWindow onRemovePreviousPages s
  | RemoveNextAction => onWindow onRemoveNextPages s
  | RotateRightAction => onWindow onRotatePagesRight s
  | RotateLeftAction => onWindow onRotatePagesLeft s
  | CancelSelectionAction => onWindow onCancelSelection s
  | ShortcutsAction => onWindow onShortcutsAction s
  | AboutAction => onWindow onAboutAction s
  end.

(** Activating a disabled action does nothing. *)
Definition activate (a : Action) (chosen : option File) (s : System)
  : System :=
  if enabled a (window s) then handler a chosen s else s.

(** The handlers connected to the two dispatchers in setupSignalHandlers;
    they run on the main loop. *)
Definition onSaved (w : AppWindow) : AppWindow :=
  enableEditingActions (with_savingRevealer RevealSaved w).

Definition onSavingFailed (w : AppWindow) : AppWindow :=
  present (ErrorDialog "The current document could not be saved")
          (enableEditingActions (with_savingRevealer Hidden w)).

Definition deliver (s : System) : System :=
  match mainLoop s with
  | [] => s
  | m_savedDispatcher :: rest => onWindow onSaved (with_mainLoop rest s)
  | m_savingFailedDispatcher :: rest =>
      onWindow onSavingFailed (with_mainLoop rest s)
  end.

Definition emit (d : Dispatcher) (t : Worker) (next : Pc) : Worker :=
  mkWorker (w_file t) next (w_written t) (w_emitted t ++ [d]).

(** One step of save thread [i].  The save reads the document the window
    holds when the step runs; with no document set (which the disabled
    save-document action rules out) the step is taken to fail. *)
Definition workerStep (i : nat) (s : System) : System :=
  match threads s !! i with
  | None => s
  | Some t =>
      match w_pc t with
      | AtSave =>
          match m_document (window s) ≫= (fun d => save d (w_file t)) with
          | Some bytes =>
              with_threads
                (<[i := mkWorker (w_file t) AtEmitSaved (Some bytes)
                                 (w_emitted t)]> (threads s)) s
          | None =>
              with_threads
                (<[i := mkWorker (w_file t) AtCatch None (w_emitted t)]>
                   (threads s)) s
          end
      | AtEmitSaved =>
          with_mainLoop (mainLoop s ++ [m_savedDispatcher])
            (with_threads
               (<[i := emit m_savedDispatcher t AtClearFlag]> (threads s)) s)
      | AtCatch =>
          let s1 :=
            onWindow
              (fun w =>
                 logError ("The destination file was: "
                           +:+ file_path (w_file t))
                          (logError "Saving the document failed" w)) s in
          with_mainLoop (mainLoop s1 ++ [m_savingFailedDispatcher])
            (with_threads
               (<[i := emit m_savingFailedDispatcher t AtClearFlag]>
                  (threads s1)) s1)
      | AtClearFlag =>
          with_threads
            (<[i := mkWorker (w_file t) Finished (w_written t)
                             (w_emitted t)]> (threads s))
            (onWindow (with_isSavingDocument false) s)
      | Finished => s
      end
  end.

Inductive Event : Set :=
| Activate (a : Action) (chosen : option File)
| SelectionChanged (selected : list nat)
| Deliver                      (* the main loop runs a pending dispatcher *)
| DeleteEvent
| SizeAllocate (maximized : bool) (w h : Z)
| WindowStateEvent (maximized : bool)
| WorkerStep (i : nat).

Section WithCodec.
Context `{codec : KeyFileCodec}.

(** The constructor, as far as the modelled members go: the window state
    is loaded, every managed action but open-document starts disabled, the
    welcome screen shows and no save is running. *)
Definition newAppWindow (sm : SettingsManager) : AppWindow :=
  mkAppWindow None false (loadWindowState sm)
    (mkActions true false false false false false false false false false
               false)
    [] false "welcome" "" Hidden [] [] [].

Definition initial (onDisk : option KeyFile) : System :=
  let sm := loadConfigFile onDisk in
  mkSystem (newAppWindow sm) [] [] false sm.

(** A delete-event the handler does not stop destroys the window, whose
    destructor saves the window state. *)
Definition deleteEvent (s : System) : System :=
  if on_delete_event (window s) then s
  else mkSystem (window s) (threads s) (mainLoop s) true
                (saveWindowState (m_windowState (window s)) (settings s)).

(** One event of the session.  Once the window is destroyed nothing further
    is modelled. *)
Definition exec (e : Event) (s : System) : System :=
  if destroyed s then s
  else
    match e with
    | Activate a chosen => activate a chosen s
    | SelectionChanged sel =>
        onWindow (fun w => onSelectedPagesChanged (with_selected sel w)) s
    | Deliver => deliver s
    | DeleteEvent => deleteEvent s
    | SizeAllocate maximized w h => onWindow (onSizeAllocate maximized w h) s
    | WindowStateEvent maximized => onWindow (onWindowStateEvent maximized) s
    | WorkerStep i => workerStep i s
    end.

Definition run (es : list Event) (s : System) : System :=
  foldl (fun acc e => exec e acc) s es.

End WithCodec.

End App.

(** ** Notions used to state the properties *)

Module BackendNotions.
Import Backend.

Definition opposite (dir : Direction) : Direction :=
  match dir with Right => Left | Left => Right end.

(** The applied stack as a record of how the current pages were reached
    from [origin]: each command was constructed on the pages it was then
    applied to. *)
Inductive Reached (origin : list Page) : list Command -> list Page -> Prop :=
| reached_origin : Reached origin [] origin
| reached_apply r cs ps :
    Reached origin cs ps ->
    Reached origin (construct r ps :: cs) (apply (construct r ps) ps).

(** The undone stack can be replayed from the current pages. *)
Fixpoint Replayable (ps : list Page) (cs : list Command) : Prop :=
  match cs with
  | [] => True
  | c :: rest => (exists r, c = construct r ps) /\ Replayable (apply c ps) rest
  end.

Definition Coherent (origin : list Page) (d : Document) : Prop :=
  Reached origin (applied (history d)) (pages d) /\
  Replayable (pages d) (undone (history d)).

End BackendNotions.

Module AppNotions.
Import Backend Settings App.

(** What onSelectedPagesChanged makes of the selection-dependent flags. *)
Definition selectionActions (sel : list nat) (numPages : nat)
           (acts : Actions) : Actions :=
  let some := match sel with [] => false | _ => true end in
  let previous := match sel with [i] => negb (bool_decide (Z.of_nat i = 0))
                               | _ => false end in
  let next :=
    match sel with
    | [i] => negb (bool_decide (Z.of_nat i = Z.of_nat numPages - 1))
    | _ => false
    end in
  mkActions (m_openAction acts) (m_saveAction acts) (m_undoAction acts)
            (m_redoAction acts) some some previous next some some some.

Definition historyActions (d : Document) (acts : Actions) : Actions :=
  set_enabled RedoAction (canRedo d)
              (set_enabled UndoAction (canUndo d) acts).

Definition allDisabled : Actions :=
  mkActions false false false false false false false false false false
            false.

(** With a document set, enableEditingActions decides every managed flag
    from the selection and the history alone. *)
Definition syncedActions (sel : list nat) (d : Document) : Actions :=
  historyActions d
    (selectionActions sel (length (pages d))
       (mkActions true true false false false false false false false false
                  false)).

(** The two flags that guard a new save or a new document. *)
Definition lockFlags (w : AppWindow) : bool * bool :=
  (m_openAction (m_actions w), m_saveAction (m_actions w)).

(** The thread-local part of a step, given the document the window holds
    when the step runs. *)
Definition advance (doc : option Document) (t : Worker) : Worker :=
  match w_pc t with
  | AtSave =>
      match doc ≫= (fun d => save d (w_file t)) with
      | Some bytes =>
          mkWorker (w_file t) AtEmitSaved (Some bytes) (w_emitted t)
      | None => mkWorker (w_file t) AtCatch None (w_emitted t)
      end
  | AtEmitSaved => emit m_savedDispatcher t AtClearFlag
  | AtCatch => emit m_savingFailedDispatcher t AtClearFlag
  | AtClearFlag => mkWorker (w_file t) Finished (w_written t) (w_emitted t)
  | Finished => t
  end.

(** A thread step leaves the window as it is but for the saving flag and
    the log: no handler runs on the thread. *)
Definition sameInterface (w w' : AppWindow) : Prop :=
  w' = mkAppWindow (m_document w) (m_isSavingDocument w') (m_windowState w)
         (m_actions w) (m_view_selected w) (m_zoomLevel_enabled w)
         (m_stack w) (m_headerBar_subtitle w) (m_savingRevealer w)
         (presented w) (logged w') (raised w).

Definition locked (s : System) : Prop :=
  lockFlags (window s) = (false, false).

Definition quiet (e : Event) : Prop :=
  match e with
  | SelectionChanged _ | Deliver => False
  | _ => True
  end.

Definition frozen (doc : option Document) (s : System) : Prop :=
  m_actions (window s) = allDisabled /\ m_document (window s) = doc.

(** What a thread saving to [file] has written is, if anything, the
    document [doc] as PdfSaver renders it. *)
Definition writesOnly (doc : option Document) (file : File) (t : Worker)
  : Prop :=
  w_file t = file /\
  (w_written t = None \/
   w_written t = doc ≫= (fun d => save d file)).

(** The phase of the save coordinator, which the window keeps in
    m_isSavingDocument. *)
Inductive Phase : Set := Idle | Saving.

Definition phase (w : AppWindow) : Phase :=
  if m_isSavingDocument w then Saving else Idle.

(** What a step of thread [t] does to the window and to the main loop. *)
Definition stepWindow (t : Worker) (w : AppWindow) : AppWindow :=
  match w_pc t with
  | AtCatch =>
      logError ("The destination file was: " +:+ file_path (w_file t))
               (logError "Saving the document failed" w)
  | AtClearFlag => with_isSavingDocument false w
  | _ => w
  end.

Definition stepMainLoop (t : Worker) (q : list Dispatcher)
  : list Dispatcher :=
  match w_pc t with
  | AtEmitSaved => q ++ [m_savedDispatcher]
  | AtCatch => q ++ [m_savingFailedDispatcher]
  | _ => q
  end.

(** The terminal signal that belongs to a thread: success when its save
    wrote something, failure otherwise. *)
Definition terminalOf (t : Worker) : Dispatcher :=
  match w_written t with
  | Some _ => m_savedDispatcher
  | None => m_savingFailedDispatcher
  end.


(** The managed flags say what the selection and the history allow. *)
Definition inSync (w : AppWindow) : Prop :=
  exists d, m_document w = Some d /\
            m_actions w = syncedActions (m_view_selected w) d.

(** What thread [i] has written so far. *)
Definition writtenBy (i : nat) (s : System) : option Bytes :=
  threads s !! i ≫= w_written.

(** What PdfSaver makes of the document the window holds. *)
Definition bytesOf (s : System) (file : File) : option Bytes :=
  m_document (window s) ≫= (fun d => save d file).

(** Files and sessions to run the code on. *)
Definition threePages : File := mkFile "three.pdf" (Some 3%nat) true.
Definition corrupt : File := mkFile "corrupt.pdf" None true.
Definition destination : File := mkFile "out.pdf" None true.
Definition otherDestination : File := mkFile "other.pdf" None true.
Definition readOnly : File := mkFile "locked.pdf" None false.

(** A document is open, its first page selected and rotated right. *)
Definition edited : System :=
  @run sampleCodec
       [Activate OpenAction (Some threePages); SelectionChanged [0%nat];
        Activate RotateRightAction None]
       (@initial sampleCodec None).

(** The same session with a save to [destination] requested. *)
Definition saving : System :=
  @exec sampleCodec (Activate SaveAction (Some destination)) edited.

Section Statements.
Context `{codec : KeyFileCodec}.

(** Snapshot semantics: whatever happens after the save was requested,
    what the save writes is the document as it was at the request. *)
Definition snapshotSemantics (s : System) (file : File)
           (es : list Event) : Prop :=
  forall bytes,
    writtenBy (length (threads s)) (run es (trySaveDocument file s))
    = Some bytes ->
    bytesOf s file = Some bytes.

(** Failing fast: a save requested while one is in flight starts no
    thread and raises AlreadySavingError. *)
Definition failsFast (s : System) (file : File) : Prop :=
  phase (window s) = Saving ->
  let s' := exec (Activate SaveAction (Some file)) s in
  threads s' = threads s /\ AlreadySavingError ∈ raised (window s').

End Statements.

End AppNotions.

(** ** Further notions *)

Module SessionNotions.
Import Backend Settings App AppNotions.

#[global] Instance Action_eq_dec : EqDecision Action.
Proof. solve_decision. Defined.

(** The codec reads back what it writes for the three values of [ws]. *)
Definition readsBack `{codec : KeyFileCodec} (ws : WindowState) : Prop :=
  parse_integer (print_integer (width ws)) = Some (width ws) /\
  parse_integer (print_integer (height ws)) = Some (height ws) /\
  parse_boolean (print_boolean (isMaximized ws)) = Some (isMaximized ws).

(** The keys saveWindowState writes. *)
Definition windowStateKeys : list (string * string) :=
  [(groupName, keys_width); (groupName, keys_height);
   (groupName, keys_isMaximized)].

(** The pages the window's document shows, none without a document. *)
Definition shownPages (w : AppWindow) : list Page :=
  match m_document w with Some d => pages d | None => [] end.

(** No handler has faulted, and undo and redo are offered only when the
    document can undo and redo. *)
Definition historySound (w : AppWindow) : Prop :=
  raised w = [] /\
  match m_document w with
  | Some d =>
      (m_undoAction (m_actions w) = true -> canUndo d = true) /\
      (m_redoAction (m_actions w) = true -> canRedo d = true)
  | None =>
      m_undoAction (m_actions w) = false /\
      m_redoAction (m_actions w) = false
  end.

(** Without a document nothing can be saved and nothing is being saved. *)
Definition documentGuard (s : System) : Prop :=
  m_document (window s) = None ->
  m_saveAction (m_actions (window s)) = false /\
  threads s = [] /\ mainLoop s = [].

(** A set saving flag has a thread that is still to clear it. *)
Definition savingHasThread (s : System) : Prop :=
  m_isSavingDocument (window s) = true ->
  exists i t, threads s !! i = Some t /\ w_pc t <> Finished.

(** The events that change the remembered size, and the remembered
    maximized flag. *)
Definition resizes (e : Event) : Prop :=
  match e with SizeAllocate false _ _ => True | _ => False end.

Definition changesMaximized (e : Event) : Prop :=
  match e with WindowStateEvent _ => True | _ => False end.

(** What only the save threads and the geometry events change. *)
Definition fixedPart (w : AppWindow) : bool * WindowState :=
  (m_isSavingDocument w, m_windowState w).

(** The pages of [ps] whose position satisfies [P], in order. *)
Definition pagesAt (P : nat -> Prop) `{!forall k, Decision (P k)}
           (ps : list Page) : list Page :=
  (filter (fun kp => P kp.1) (zip (seq 0 (length ps)) ps)).*2.

(** The header and the stack say what is open: the editor with the
    document's name and zoom enabled, or the welcome screen. *)
Definition chromeSound (w : AppWindow) : Prop :=
  match m_document w with
  | Some d =>
      m_stack w = "editor"%string /\
      m_headerBar_subtitle w = basename d /\
      m_zoomLevel_enabled w = true
  | None =>
      m_stack w = "welcome"%string /\
      m_headerBar_subtitle w = ""%string /\
      m_zoomLevel_enabled w = false
  end.

End SessionNotions.

(** ** Notions of signal delivery *)

Module DeliveryNotions.
Import Backend Settings App AppNotions.







End DeliveryNotions.

(** ** Facts about the backend *)

Module BackendFacts.
Import Backend BackendNotions.

Lemma counterclockwise_clockwise r : counterclockwise (clockwise r) = r.
Proof. by destruct r. Qed.

Lemma clockwise_counterclockwise r : clockwise (counterclockwise r) = r.
Proof. by destruct r. Qed.

Lemma rotate_opposite dir p : rotate (opposite dir) (rotate dir p) = p.
Proof.
  destruct p as [i r b], dir; unfold rotate; simpl;
    by rewrite ?counterclockwise_clockwise, ?clockwise_counterclockwise.
Qed.

Lemma rotateAt_opposite sel dir k ps :
  rotateAt sel (opposite dir) k (rotateAt sel dir k ps) = ps.
Proof.
  revert k. induction ps as [|p ps IH]; intros k; simpl; [done|].
  rewrite IH. destruct (sel k); by rewrite ?rotate_opposite.
Qed.

Lemma visible_rotateAt sel dir k ps :
  visible ps -> visible (rotateAt sel dir k ps).
Proof.
  unfold visible. intros H. revert k.
  induction H as [|p ps Hp _ IH]; intros k; simpl; constructor; [|by apply IH].
  by destruct (sel k).
Qed.

Lemma visible_survivors sel k ps :
  visible ps -> visible (survivors sel k ps).
Proof.
  unfold visible. intros H. revert k.
  induction H as [|p ps Hp _ IH]; intros k; simpl; [constructor|].
  destruct (sel k); [by apply IH | constructor; [done | by apply IH]].
Qed.

Lemma markRestored_markRemoved p :
  page_removed p = false -> markRestored (markRemoved p) = p.
Proof. destruct p as [i r b]. simpl. by intros ->. Qed.

Lemma insertAt_length pre p rest :
  insertAt (length pre) p (pre ++ rest) = (pre ++ [p]) ++ rest.
Proof.
  unfold insertAt. rewrite take_app_length, drop_app_length.
  by rewrite <- app_assoc.
Qed.

(** Reinserting the captured entries, lowest position first, into the
    survivors rebuilds the sequence; [pre] is the part already rebuilt. *)
Lemma reinsert_capture sel ps : forall pre,
  visible ps ->
  reinsert (capture sel (length pre) ps)
           (pre ++ survivors sel (length pre) ps) = pre ++ ps.
Proof.
  unfold reinsert.
  induction ps as [|p ps IH]; intros pre Hv; simpl; [done|].
  apply Forall_cons in Hv as [Hp Hv].
  specialize (IH (pre ++ [p]) Hv).
  rewrite length_app in IH. simpl in IH.
  replace (length pre + 1)%nat with (S (length pre)) in IH by lia.
  destruct (sel (length pre)); simpl.
  - rewrite markRestored_markRemoved by done.
    rewrite insertAt_length, IH. by rewrite <- app_assoc.
  - replace (pre ++ p :: survivors sel (S (length pre)) ps)
      with ((pre ++ [p]) ++ survivors sel (S (length pre)) ps)
      by (by rewrite <- app_assoc).
    rewrite IH. by rewrite <- app_assoc.
Qed.

Lemma reverse_apply r ps :
  visible ps -> reverse (construct r ps) (apply (construct r ps) ps) = ps.
Proof.
  intros Hv. destruct r as [idx|a b|idx|idx]; simpl.
  - apply (reinsert_capture _ ps [] Hv).
  - apply (reinsert_capture _ ps [] Hv).
  - apply (rotateAt_opposite _ Right).
  - apply (rotateAt_opposite _ Left).
Qed.

Lemma visible_apply c ps : visible ps -> visible (apply c ps).
Proof.
  destruct c; simpl; auto using visible_survivors, visible_rotateAt.
Qed.

Lemma Reached_visible origin cs ps :
  visible origin -> Reached origin cs ps -> visible ps.
Proof. induction 2; auto using visible_apply. Qed.

Lemma Coherent_perform origin op d :
  visible origin -> Coherent origin d -> Coherent origin (perform op d).
Proof.
  intros Hv [Hr Hp]. destruct op as [r| |]; simpl.
  - unfold edit. destruct (emptyRequest r); simpl; [done|].
    split; simpl; [by constructor | done].
  - unfold undoCommand, undo. unfold Coherent in *.
    destruct d as [ps [app und] name]; simpl in *.
    destruct app as [|c cs]; [done|].
    inversion Hr as [|r cs' ps' Hr' Hc Hps]. subst cs' c.
    pose proof (Reached_visible _ _ _ Hv Hr') as Hv'.
    simpl. rewrite reverse_apply by done.
    split; [done|]. split; [by exists r | by rewrite Hps].
  - unfold redoCommand, redo.
    destruct d as [ps [app und] name]; simpl in *.
    destruct und as [|c cs]; [done|].
    destruct Hp as [[r ->] Hp]. split; simpl; [by constructor | done].
Qed.

Lemma Coherent_performAll origin ops : forall d,
  visible origin -> Coherent origin d -> Coherent origin (performAll ops d).
Proof.
  unfold performAll.
  induction ops as [|op ops IH]; intros d Hv Hc; simpl; [done|].
  apply IH; [done|]. by apply Coherent_perform.
Qed.

Lemma undoAll_Reached origin d :
  visible origin ->
  Reached origin (applied (history d)) (pages d) ->
  pages (undoAll d) = origin /\ canUndo (undoAll d) = false.
Proof.
  intros Hv. funelim (undoAll d); intros Hr; clear Heqcall;
    unfold undo in Hundo;
    destruct d as [ps [app und] name]; simpl in *;
    destruct app as [|c cs]; try discriminate.
  - (* nothing left to undo *)
    unfold canUndo. simpl. by inversion Hr.
  - (* one more command to undo *)
    injection Hundo as <-.
    match goal with IH : context [undoAll] |- _ => apply IH end; [done|].
    simpl. inversion Hr as [|r cs' ps' Hr' Hc Hps]. subst cs' c.
    rewrite reverse_apply; [done|].
    by eapply Reached_visible.
Qed.

End BackendFacts.

(** ** Facts about the window's handlers *)

Module AppFacts.
Import Backend Settings App AppNotions.

Lemma onSelectedPagesChanged_eq w :
  onSelectedPagesChanged w =
  with_actions
    (selectionActions (m_view_selected w) (numberOfPages w) (m_actions w)) w.
Proof.
  destruct w as [doc flag ws acts sel zoom st sub rev pres lg rs].
  destruct acts.
  unfold onSelectedPagesChanged, selectionActions,
    getSelectedChildrenIndexes, getSelectedChildIndex.
  cbn [m_view_selected m_actions].
  generalize (numberOfPages
                (mkAppWindow doc flag ws
                   (mkActions m_openAction0 m_saveAction0 m_undoAction0
                      m_redoAction0 m_removeSelectedAction0
                      m_removeUnselectedAction0 m_removePreviousAction0
                      m_removeNextAction0 m_rotateRightAction0
                      m_rotateLeftAction0 m_cancelSelectionAction0)
                   sel zoom st sub rev pres lg rs)).
  intros n.
  destruct sel as [|i [|j l]]; cbn [length]; cbv zeta.
  - vm_compute. reflexivity.
  - rewrite (bool_decide_eq_false_2 (1 = 0)%nat) by done.
    rewrite (bool_decide_eq_true_2 (1 = 1)%nat) by done.
    rewrite (bool_decide_eq_false_2 (1 < 1)%nat) by lia.
    destruct (bool_decide (Z.of_nat i = 0));
      destruct (bool_decide (Z.of_nat i = Z.of_nat n - 1)); reflexivity.
  - rewrite (bool_decide_eq_false_2 (S (S (length l)) = 0)%nat) by done.
    rewrite (bool_decide_eq_false_2 (S (S (length l)) = 1)%nat) by done.
    rewrite (bool_decide_eq_true_2 (1 < S (S (length l)))%nat) by lia.
    reflexivity.
Qed.

Lemma onCommandExecuted_eq w d :
  m_document w = Some d ->
  onCommandExecuted w = with_actions (historyActions d (m_actions w)) w.
Proof.
  intros Hd. unfold onCommandExecuted, historyActions. rewrite Hd.
  destruct w as [doc flag ws acts sel zoom st sub rev pres lg rs].
  destruct acts. by destruct (canUndo d), (canRedo d).
Qed.

Lemma onCommandExecuted_none w :
  m_document w = None -> onCommandExecuted w = w.
Proof. intros Hd. unfold onCommandExecuted. by rewrite Hd. Qed.

Lemma disableEditingActions_eq w :
  disableEditingActions w = with_actions allDisabled w.
Proof. by destruct w as [? ? ? [] ? ? ? ? ? ? ? ?]. Qed.

Lemma enableEditingActions_eq w d :
  m_document w = Some d ->
  enableEditingActions w =
  with_actions (syncedActions (m_view_selected w) d) w.
Proof.
  intros Hd. unfold enableEditingActions.
  rewrite (onCommandExecuted_eq _ d), onSelectedPagesChanged_eq.
  - destruct w as [doc flag ws acts sel zoom st sub rev pres lg rs].
    simpl in Hd. subst doc. by destruct acts.
  - rewrite onSelectedPagesChanged_eq. by destruct w.
Qed.

Lemma lockFlags_onSelectedPagesChanged w :
  lockFlags (onSelectedPagesChanged w) = lockFlags w.
Proof. rewrite onSelectedPagesChanged_eq. by destruct w. Qed.

Lemma lockFlags_onCommandExecuted w :
  lockFlags (onCommandExecuted w) = lockFlags w.
Proof.
  destruct (m_document w) as [d|] eqn:Hd.
  - rewrite (onCommandExecuted_eq _ d Hd).
    destruct w as [? ? ? [] ? ? ? ? ? ? ? ?].
    unfold historyActions. by destruct (canUndo d), (canRedo d).
  - by rewrite onCommandExecuted_none.
Qed.

Lemma lockFlags_editDocument op w :
  lockFlags (editDocument op w) = lockFlags w.
Proof.
  unfold editDocument. destruct (m_document w) as [d|]; [|done].
  destruct (op d) as [d' [|]]; [|done].
  by rewrite lockFlags_onCommandExecuted.
Qed.

Lemma lockFlags_historyStep op w :
  lockFlags (historyStep op w) = lockFlags w.
Proof.
  unfold historyStep. destruct (m_document w) as [d|]; [|done].
  destruct (op d) as [e|d']; [done|].
  by rewrite lockFlags_onCommandExecuted.
Qed.

(** *** Save threads *)

Lemma workerStep_threads i s :
  threads (workerStep i s) =
  match threads s !! i with
  | Some t => <[i := advance (m_document (window s)) t]> (threads s)
  | None => threads s
  end.
Proof.
  unfold workerStep, advance.
  destruct (threads s !! i) as [t|] eqn:Ht; [|done].
  destruct (w_pc t) eqn:Hpc; simpl; try done.
  - by destruct (m_document (window s) ≫= _).
  - symmetry. by apply list_insert_id.
Qed.

Lemma workerStep_window i s :
  sameInterface (window s) (window (workerStep i s)).
Proof.
  unfold workerStep, sameInterface.
  destruct s as [w ts q dz sm]; simpl.
  destruct (ts !! i) as [t|]; [|by destruct w].
  destruct (w_pc t); simpl; try by destruct w.
  by destruct (m_document w ≫= _); destruct w.
Qed.

Lemma workerStep_destroyed i s :
  destroyed (workerStep i s) = destroyed s.
Proof.
  unfold workerStep. destruct (threads s !! i) as [t|]; [|done].
  destruct (w_pc t); simpl; try done.
  by destruct (m_document (window s) ≫= _).
Qed.

Section WithCodec.
Context `{codec : KeyFileCodec}.

(** *** The save lock: open-document and save-document stay disabled
    until a dispatcher handler runs *)

Lemma locked_trySaveDocument file s : locked (trySaveDocument file s).
Proof.
  unfold locked, trySaveDocument. simpl.
  by rewrite disableEditingActions_eq.
Qed.

Lemma locked_exec e s : e <> Deliver -> locked s -> locked (exec e s).
Proof.
  intros He Hl. unfold exec. destruct (destroyed s); [done|].
  destruct e as [a chosen|sel| | |mx w h|mx|i]; try done.
  - (* an action *)
    unfold activate. destruct (enabled a (window s)) eqn:Hen; [|done].
    unfold locked in *.
    destruct a; cbn [handler]; unfold onWindow, with_window;
      cbn [window];
      unfold onUndoAction, onRedoAction, onRemoveSelectedPages,
        onRemoveUnselectedPages, onRemovePreviousPages, onRemoveNextPages,
        onRotatePagesRight, onRotatePagesLeft;
      rewrite ?lockFlags_historyStep, ?lockFlags_editDocument; try done.
    + (* open-document is disabled *)
      unfold enabled, lockFlags in *. cbn in Hen. congruence.
    + (* save-document is disabled *)
      unfold enabled, lockFlags in *. cbn in Hen. congruence.
  - unfold locked, onWindow, with_window in *. cbn [window].
    rewrite lockFlags_onSelectedPagesChanged. by destruct (window s).
  - unfold deleteEvent. by destruct (on_delete_event (window s)).
  - unfold locked, onSizeAllocate, onWindow, with_window in *.
    cbn [window]. destruct mx; exact Hl.
  - unfold locked in *. pose proof (workerStep_window i s) as Hw.
    rewrite Hw. exact Hl.
Qed.

Lemma locked_run es : forall s,
  Forall (fun e => e <> Deliver) es -> locked s -> locked (run es s).
Proof.
  unfold run. induction es as [|e es IH]; intros s Hes Hl; simpl; [done|].
  apply Forall_cons in Hes as [He Hes].
  apply IH; [done|]. by apply locked_exec.
Qed.

Lemma locked_save_ignored chosen s :
  locked s -> exec (Activate SaveAction chosen) s = s.
Proof.
  intros Hl. unfold exec, activate. destruct (destroyed s); [done|].
  unfold locked, lockFlags, enabled in *. simpl.
  destruct (m_saveAction (m_actions (window s))); [congruence|done].
Qed.

(** *** While every managed action is disabled no edit happens *)

Lemma frozen_trySaveDocument file s :
  frozen (m_document (window s)) (trySaveDocument file s).
Proof.
  unfold frozen, trySaveDocument, with_threads, with_window.
  cbn [window]. rewrite disableEditingActions_eq. by destruct (window s).
Qed.

Lemma frozen_activate doc a chosen s :
  frozen doc s ->
  activate a chosen s = s \/
  (threads (activate a chosen s) = threads s /\
   frozen doc (activate a chosen s)).
Proof.
  intros [Ha Hd]. unfold activate, enabled. rewrite Ha.
  destruct a; simpl; auto; right; (split; [done|]);
    unfold frozen; simpl; by destruct (window s).
Qed.

(** Under quiet events the threads only ever advance, and they read the
    document that was there at the start. *)
Lemma frozen_exec doc e s :
  quiet e -> frozen doc s ->
  frozen doc (exec e s) /\
  (threads (exec e s) = threads s \/
   exists i t, threads s !! i = Some t /\
               threads (exec e s) = <[i := advance doc t]> (threads s)).
Proof.
  intros Hq Hf. unfold exec. destruct (destroyed s); [by auto|].
  destruct e as [a chosen|sel| | |mx w h|mx|i]; try done.
  - destruct (frozen_activate doc a chosen s Hf) as [->|[Ht Hf']]; auto.
  - unfold deleteEvent. destruct (on_delete_event (window s)); auto.
  - split; [|by left]. destruct Hf as [Ha Hd].
    unfold frozen, onSizeAllocate. simpl.
    destruct mx; [done|]. by destruct (window s).
  - split; [|by left]. destruct Hf as [Ha Hd].
    unfold frozen. simpl. by destruct (window s).
  - destruct Hf as [Ha Hd]. split.
    + unfold frozen. rewrite (workerStep_window i s). done.
    + rewrite workerStep_threads, Hd.
      destruct (threads s !! i) as [t|] eqn:Ht; [|by left].
      right. by exists i, t.
Qed.

Lemma writesOnly_advance doc file t :
  writesOnly doc file t -> writesOnly doc file (advance doc t).
Proof.
  intros [Hf Hw]. unfold advance, writesOnly.
  destruct t as [f pc written emitted]. cbn in Hf, Hw. subst f.
  destruct pc; cbn; try done.
  destruct (doc ≫= _) as [bytes|]; cbn; auto.
Qed.

Lemma writesOnly_run doc file i es : forall s,
  Forall quiet es -> frozen doc s ->
  (exists t, threads s !! i = Some t /\ writesOnly doc file t) ->
  frozen doc (run es s) /\
  exists t, threads (run es s) !! i = Some t /\ writesOnly doc file t.
Proof.
  unfold run.
  induction es as [|e es IH]; intros s Hes Hf Ht; simpl; [done|].
  apply Forall_cons in Hes as [He Hes].
  destruct (frozen_exec doc e s He Hf) as [Hf' Hts].
  apply IH; [done|done|].
  destruct Ht as (t & Hi & Hw).
  destruct Hts as [->|(j & u & Hj & ->)]; [by exists t|].
  destruct (decide (j = i)) as [->|Hne].
  - exists (advance doc u).
    rewrite list_lookup_insert_eq by (by eapply lookup_lt_Some).
    split; [done|]. rewrite Hi in Hj. injection Hj as <-.
    by apply writesOnly_advance.
  - exists t. by rewrite list_lookup_insert_ne.
Qed.

(** *** Every thread emits its terminal signal once *)


Lemma workerStep_eq i s t :
  threads s !! i = Some t ->
  workerStep i s =
  mkSystem (stepWindow t (window s))
           (<[i := advance (m_document (window s)) t]> (threads s))
           (stepMainLoop t (mainLoop s)) (destroyed s) (settings s).
Proof.
  intros Ht. unfold workerStep, stepWindow, stepMainLoop, advance.
  rewrite Ht. destruct s as [w ts q dz sm]; simpl in *.
  destruct (w_pc t); simpl; try done.
  - by destruct (m_document w ≫= _); destruct w.
  - by rewrite list_insert_id.
Qed.






(** *** One save, from the request to the handler of its signal *)

Lemma step_last w ts t q sm :
  exec (WorkerStep (length ts)) (mkSystem w (ts ++ [t]) q false sm) =
  mkSystem (stepWindow t w) (ts ++ [advance (m_document w) t])
           (stepMainLoop t q) false sm.
Proof.
  unfold exec. cbn [destroyed].
  rewrite (workerStep_eq (length ts) _ t)
    by (cbn [threads]; by apply list_lookup_middle).
  cbn [window threads mainLoop destroyed settings]. f_equal.
  rewrite insert_app_r_alt by lia. by rewrite Nat.sub_diag.
Qed.

Lemma step_save_ok w ts file emitted q sm d bytes :
  m_document w = Some d -> save d file = Some bytes ->
  exec (WorkerStep (length ts))
       (mkSystem w (ts ++ [mkWorker file AtSave None emitted]) q false sm)
  = mkSystem w (ts ++ [mkWorker file AtEmitSaved (Some bytes) emitted])
             q false sm.
Proof.
  intros Hd Hs. rewrite step_last.
  unfold advance, stepWindow, stepMainLoop. cbn [w_pc w_file w_emitted].
  rewrite Hd. cbn [mbind option_bind]. by rewrite Hs.
Qed.

Lemma step_save_fails w ts file emitted q sm d :
  m_document w = Some d -> save d file = None ->
  exec (WorkerStep (length ts))
       (mkSystem w (ts ++ [mkWorker file AtSave None emitted]) q false sm)
  = mkSystem w (ts ++ [mkWorker file AtCatch None emitted]) q false sm.
Proof.
  intros Hd Hs. rewrite step_last.
  unfold advance, stepWindow, stepMainLoop. cbn [w_pc w_file w_emitted].
  rewrite Hd. cbn [mbind option_bind]. by rewrite Hs.
Qed.

Lemma step_emit_saved w ts file written emitted q sm :
  exec (WorkerStep (length ts))
       (mkSystem w (ts ++ [mkWorker file AtEmitSaved written emitted])
                 q false sm)
  = mkSystem w
      (ts ++ [mkWorker file AtClearFlag written
                       (emitted ++ [m_savedDispatcher])])
      (q ++ [m_savedDispatcher]) false sm.
Proof. by rewrite step_last. Qed.

Lemma step_catch w ts file written emitted q sm :
  exec (WorkerStep (length ts))
       (mkSystem w (ts ++ [mkWorker file AtCatch written emitted])
                 q false sm)
  = mkSystem
      (logError ("The destination file was: " +:+ file_path file)
                (logError "Saving the document failed" w))
      (ts ++ [mkWorker file AtClearFlag written
                       (emitted ++ [m_savingFailedDispatcher])])
      (q ++ [m_savingFailedDispatcher]) false sm.
Proof. by rewrite step_last. Qed.

Lemma step_clear_flag w ts file written emitted q sm :
  exec (WorkerStep (length ts))
       (mkSystem w (ts ++ [mkWorker file AtClearFlag written emitted])
                 q false sm)
  = mkSystem (with_isSavingDocument false w)
             (ts ++ [mkWorker file Finished written emitted]) q false sm.
Proof. by rewrite step_last. Qed.

Lemma deliver_head w ts x q sm :
  exec Deliver (mkSystem w ts (x :: q) false sm) =
  mkSystem (match x with
            | m_savedDispatcher => onSaved w
            | m_savingFailedDispatcher => onSavingFailed w
            end) ts q false sm.
Proof. by destruct x. Qed.

Lemma m_actions_onSaved w d :
  m_document w = Some d ->
  m_actions (onSaved w) = syncedActions (m_view_selected w) d /\
  m_isSavingDocument (onSaved w) = m_isSavingDocument w.
Proof.
  intros Hd. unfold onSaved.
  rewrite (enableEditingActions_eq _ d) by (by destruct w).
  by destruct w.
Qed.

Lemma m_actions_onSavingFailed w d :
  m_document w = Some d ->
  m_actions (onSavingFailed w) = syncedActions (m_view_selected w) d /\
  m_isSavingDocument (onSavingFailed w) = m_isSavingDocument w.
Proof.
  intros Hd. unfold onSavingFailed.
  rewrite (enableEditingActions_eq _ d) by (by destruct w).
  by destruct w.
Qed.

Lemma save_cycle file s d es :
  destroyed s = false -> mainLoop s = [] ->
  m_document (window s) = Some d ->
  let i := length (threads s) in
  es = [WorkerStep i; WorkerStep i; WorkerStep i; Deliver] \/
  es = [WorkerStep i; WorkerStep i; Deliver; WorkerStep i] ->
  let s' := run es (trySaveDocument file s) in
  m_isSavingDocument (window s') = false /\
  m_actions (window s') =
    syncedActions (m_view_selected (window s)) d /\
  mainLoop s' = [] /\
  exists t, threads s' !! i = Some t /\ w_pc t = Finished /\
            w_emitted t = [terminalOf t].
Proof.
  destruct s as [w ts q dz sm]. cbn [destroyed mainLoop window threads].
  intros -> -> Hd Hes.
  unfold trySaveDocument, with_threads, with_window.
  cbn [destroyed mainLoop window threads settings].
  rewrite disableEditingActions_eq.
  set (w0 := with_isSavingDocument true
               (with_actions allDisabled
                  (with_savingRevealer RevealSaving w))).
  assert (Hd0 : m_document w0 = Some d) by (by destruct w).
  assert (Hsel : m_view_selected w0 = m_view_selected w) by (by destruct w).
  unfold run.
  destruct (save d file) as [bytes|] eqn:Hs;
    destruct Hes as [-> | ->]; cbn [foldl].
  - (* saved; the flag is cleared before the handler runs *)
    rewrite (step_save_ok _ _ _ _ _ _ d bytes Hd0 Hs).
    rewrite step_emit_saved, step_clear_flag. cbn [app].
    rewrite deliver_head. cbn [window mainLoop threads].
    destruct (m_actions_onSaved (with_isSavingDocument false w0) d)
      as [Ha Hf]; [by destruct w|].
    rewrite Ha, Hf. split; [done|]. split; [by destruct w|].
    split; [done|]. eexists. split; [by apply list_lookup_middle|done].
  - (* saved; the handler runs before the flag is cleared *)
    rewrite (step_save_ok _ _ _ _ _ _ d bytes Hd0 Hs).
    rewrite step_emit_saved. cbn [app].
    rewrite deliver_head, step_clear_flag. cbn [window mainLoop threads].
    destruct (m_actions_onSaved w0 d) as [Ha Hf]; [done|].
    split; [by destruct (onSaved w0)|].
    split; [|split; [done|]].
    + transitivity (m_actions (onSaved w0)); [by destruct (onSaved w0)|].
      rewrite Ha. by rewrite Hsel.
    + eexists. split; [by apply list_lookup_middle|done].
  - (* failed; the flag is cleared before the handler runs *)
    rewrite (step_save_fails _ _ _ _ _ _ d Hd0 Hs).
    rewrite step_catch, step_clear_flag. cbn [app].
    rewrite deliver_head. cbn [window mainLoop threads].
    set (w1 := with_isSavingDocument false _).
    destruct (m_actions_onSavingFailed w1 d) as [Ha Hf];
      [by destruct w|].
    rewrite Ha, Hf. split; [done|]. split; [by destruct w|].
    split; [done|]. eexists. split; [by apply list_lookup_middle|done].
  - (* failed; the handler runs before the flag is cleared *)
    rewrite (step_save_fails _ _ _ _ _ _ d Hd0 Hs).
    rewrite step_catch. cbn [app].
    rewrite deliver_head, step_clear_flag. cbn [window mainLoop threads].
    set (w1 := logError _ (logError _ w0)).
    destruct (m_actions_onSavingFailed w1 d) as [Ha Hf];
      [by destruct w|].
    split; [by destruct (onSavingFailed w1)|].
    split; [|split; [done|]].
    + transitivity (m_actions (onSavingFailed w1));
        [by destruct (onSavingFailed w1)|].
      rewrite Ha. by destruct w.
    + eexists. split; [by apply list_lookup_middle|done].
Qed.

End WithCodec.

End AppFacts.

(** ** Facts about signal delivery *)

Module DeliveryFacts.
Import Backend Settings App AppNotions AppFacts DeliveryNotions.




Section WithCodec.
Context `{codec : KeyFileCodec}.


Lemma run_destroyed es : forall s, destroyed s = true -> run es s = s.
Proof.
  unfold run. induction es as [|e es IH]; intros s Hd; cbn [foldl]; [done|].
  unfold exec at 2. rewrite Hd. by apply IH.
Qed.






End WithCodec.
End DeliveryFacts.

(** ** The properties of the specification *)

Import Backend Settings App BackendNotions AppNotions BackendFacts AppFacts.
Import DeliveryNotions DeliveryFacts.

(** What the window does for a save in flight: trySaveDocument disables
    every edit-affecting action, and as long as no selection change and no
    dispatcher handler runs, the document stays what it was at the request
    and the thread writes exactly that. *)
Lemma save_writes_request_state_while_quiet
      `{codec : KeyFileCodec} (s : System) (file : File) (es : list Event) :
  Forall quiet es ->
  m_document (window (run es (trySaveDocument file s))) = m_document (window s)
  /\ snapshotSemantics s file es.
Proof.
  intros Hq.
  destruct (writesOnly_run (m_document (window s)) file (length (threads s))
              es (trySaveDocument file s) Hq (frozen_trySaveDocument file s))
    as [[_ Hdoc] (t & Ht & Hfile & Hw)].
  - exists (mkWorker file AtSave None []). split.
    + unfold trySaveDocument. simpl. by apply list_lookup_middle.
    + split; [done | by left].
  - split; [done|]. intros bytes. unfold writtenBy, bytesOf.
    rewrite Ht. simpl. intros Hb. destruct Hw as [Hw|Hw]; congruence.
Qed.

(** C1, on the code: trySaveDocument takes no snapshot.  With the first
    page of three.pdf rotated, a save to out.pdf is requested: the phase is
    saving and rotate-right is disabled.  The user then selects the second
    page, and onSelectedPagesChanged enables rotate-right again; the user
    rotates that page, and the thread, which reads the window's document
    only now, writes the second page rotated, not the document as it was
    at the request. *)
Theorem C1_edit_during_save_is_written :
  let requested :=
    @exec sampleCodec (Activate SaveAction (Some destination)) edited in
  let selected := @exec sampleCodec (SelectionChanged [1%nat]) requested in
  let written :=
    @run sampleCodec [Activate RotateRightAction None; WorkerStep 0]
         selected in
  phase (window requested) = Saving /\
  enabled RotateRightAction (window requested) = false /\
  enabled RotateRightAction (window selected) = true /\
  bytesOf edited destination
  = Some [(0%nat, Deg90); (1%nat, Deg0); (2%nat, Deg0)] /\
  writtenBy 0 written
  = Some [(0%nat, Deg90); (1%nat, Deg90); (2%nat, Deg0)].
Proof. vm_compute. repeat split. Qed.

(** on_delete_event follows the saving flag: with the flag set the event
    is ignored and the window stays; with the flag clear the window is
    destroyed. *)
Lemma delete_event_follows_saving_flag `{codec : KeyFileCodec} (s : System) :
  destroyed s = false ->
  (on_delete_event (window s) = true <-> phase (window s) = Saving) /\
  (phase (window s) = Saving -> exec DeleteEvent s = s) /\
  (phase (window s) = Idle -> destroyed (exec DeleteEvent s) = true).
Proof.
  intros Hd. unfold exec, deleteEvent, on_delete_event, phase. rewrite Hd.
  destruct (m_isSavingDocument (window s)); simpl; repeat split; done.
Qed.

(** C2, on the code: while the one save thread runs a delete-event is
    refused; but the thread clears the saving flag only after its emit.
    When the handler of the signal runs in between, save-document is enabled
    with the flag still set; a second save requested then has its flag
    cleared by the first thread, so that with the second thread still to
    save the phase is idle, and a delete-event destroys the window. *)
Theorem C2_window_destroyed_while_save_in_flight :
  let racing := @run sampleCodec [WorkerStep 0; WorkerStep 0; Deliver] saving in
  let second :=
    @exec sampleCodec (Activate SaveAction (Some otherDestination)) racing in
  let cleared := @exec sampleCodec (WorkerStep 0) second in
  @exec sampleCodec DeleteEvent saving = saving /\
  @exec sampleCodec DeleteEvent second = second /\
  map w_pc (threads cleared) = [Finished; AtSave] /\
  writtenBy 1 cleared = None /\
  phase (window cleared) = Idle /\
  on_delete_event (window cleared) = false /\
  destroyed cleared = false /\
  destroyed (@exec sampleCodec DeleteEvent cleared) = true.
Proof. vm_compute. repeat split. Qed.

(** C3, as the code has it: a save requested while one is in flight is
    ignored without any error.  trySaveDocument disables save-document (and
    open-document), nothing but a dispatcher handler enables it again, and
    until then activating it changes nothing: no second thread starts, and
    the window, the running threads and the main loop are left as they are. *)
Theorem C3_second_save_ignored_until_signal_handled
        `{codec : KeyFileCodec} (s : System) (file : File) (es : list Event)
        (chosen : option File) :
  Forall (fun e => e <> Deliver) es ->
  let s' := run es (trySaveDocument file s) in
  enabled SaveAction (window s') = false /\
  enabled OpenAction (window s') = false /\
  exec (Activate SaveAction chosen) s' = s'.
Proof.
  intros Hes s'.
  assert (Hl : locked s')
    by (apply locked_run; [done | apply locked_trySaveDocument]).
  split; [|split].
  - unfold locked, lockFlags in Hl. unfold enabled. simpl. congruence.
  - unfold locked, lockFlags in Hl. unfold enabled. simpl. congruence.
  - by apply locked_save_ignored.
Qed.

Lemma C3_witness :
  let s' := @run sampleCodec
                 [SelectionChanged [1%nat]; WorkerStep 0; DeleteEvent]
                 (trySaveDocument destination edited) in
  enabled SaveAction (window s') = false /\
  enabled OpenAction (window s') = false /\
  @exec sampleCodec (Activate SaveAction (Some otherDestination)) s' = s'.
Proof.
  apply (@C3_second_save_ignored_until_signal_handled sampleCodec).
  repeat constructor; discriminate.
Defined.

(** C3, as stated, fails: with a save in flight a second request raises no
    AlreadySavingError; it is dropped silently. *)
Lemma C3_counterexample : ~ @failsFast sampleCodec saving otherDestination.
Proof.
  intros H. destruct H as [_ Hin]; [by vm_compute|].
  vm_compute in Hin. by apply elem_of_nil in Hin.
Qed.




(** C5: requesting a save puts the phase to saving and disables every managed
    action; once the thread has emitted its signal, cleared the flag, and the
    handler has run (in either order), whether the save succeeded or failed,
    the phase is idle again, open-document and save-document are enabled and
    the other managed actions are set from the selection and the history, so
    that flags which were in step with them before the save are back as they
    were. *)
Theorem C5_idle_saving_idle
        `{codec : KeyFileCodec} (s : System) (file : File) (d : Document)
        (es : list Event) :
  destroyed s = false -> mainLoop s = [] ->
  m_document (window s) = Some d ->
  let i := length (threads s) in
  es = [WorkerStep i; WorkerStep i; WorkerStep i; Deliver] \/
  es = [WorkerStep i; WorkerStep i; Deliver; WorkerStep i] ->
  let s1 := trySaveDocument file s in
  let s2 := run es s1 in
  phase (window s1) = Saving /\
  m_actions (window s1) = allDisabled /\
  phase (window s2) = Idle /\
  enabled OpenAction (window s2) = true /\
  enabled SaveAction (window s2) = true /\
  m_actions (window s2) = syncedActions (m_view_selected (window s)) d /\
  (inSync (window s) -> m_actions (window s2) = m_actions (window s)).
Proof.
  intros Hd Hq Hdoc i Hes s1 s2.
  destruct (save_cycle file s d es Hd Hq Hdoc Hes) as (Hflag & Hacts & _ & _).
  fold i in Hes. fold s1 s2 in Hflag, Hacts.
  split; [done|]. split.
  { unfold s1, trySaveDocument, with_threads, with_window. cbn [window].
    by rewrite disableEditingActions_eq. }
  split; [by unfold phase; rewrite Hflag|].
  unfold enabled. rewrite Hacts.
  split; [by unfold syncedActions, historyActions; destruct (canUndo d), (canRedo d)|].
  split; [by unfold syncedActions, historyActions; destruct (canUndo d), (canRedo d)|].
  split; [done|].
  intros (d' & Hd' & Hsync). rewrite Hdoc in Hd'. injection Hd' as <-.
  by rewrite Hsync.
Qed.

Lemma C5_witness :
  let es := [WorkerStep 0; WorkerStep 0; Deliver; WorkerStep 0] in
  let s1 := trySaveDocument readOnly edited in
  let s2 := @run sampleCodec es s1 in
  phase (window s1) = Saving /\
  m_actions (window s1) = allDisabled /\
  phase (window s2) = Idle /\
  enabled OpenAction (window s2) = true /\
  enabled SaveAction (window s2) = true /\
  m_actions (window s2) =
    syncedActions (m_view_selected (window edited))
                  (mkDocument
                     [mkPage 0 Deg90 false; mkPage 1 Deg0 false;
                      mkPage 2 Deg0 false]
                     (mkHistory [RotatePagesRight [0%nat]] []) "three.pdf") /\
  (inSync (window edited) -> m_actions (window s2) = m_actions (window edited)).
Proof.
  apply (@C5_idle_saving_idle sampleCodec edited readOnly
           (mkDocument
              [mkPage 0 Deg90 false; mkPage 1 Deg0 false; mkPage 2 Deg0 false]
              (mkHistory [RotatePagesRight [0%nat]] []) "three.pdf")
           [WorkerStep 0; WorkerStep 0; Deliver; WorkerStep 0]).
  - vm_compute. reflexivity.
  - vm_compute. reflexivity.
  - vm_compute. reflexivity.
  - right. vm_compute. reflexivity.
Defined.

(** C6, on the code: a failed open keeps the open document, but the undo
    action, enabled before, is left disabled although the document can still
    undo. *)
Theorem C6_failed_open_disables_undo :
  let s' := @exec sampleCodec (Activate OpenAction (Some corrupt)) edited in
  open corrupt = inl OpenError /\
  m_document (window s') = m_document (window edited) /\
  (canUndo <$> m_document (window s')) = Some true /\
  enabled UndoAction (window edited) = true /\
  enabled UndoAction (window s') = false.
Proof. vm_compute. repeat split. Qed.

(** C7: from a document with an empty history, after any sequence of edits,
    undos and redos, undoing until canUndo is false gives back the original
    page sequence with every page's rotation and removed state; and on any
    single command, apply followed by reverse gives back the pages. *)
Theorem C7_undo_all_restores_original (d : Document) :
  visible (pages d) ->
  history d = mkHistory [] [] ->
  (forall ops : list EditOp,
      pages (undoAll (performAll ops d)) = pages d /\
      canUndo (undoAll (performAll ops d)) = false) /\
  (forall r : Request,
      reverse (construct r (pages d)) (apply (construct r (pages d)) (pages d))
      = pages d).
Proof.
  intros Hv Hh. split.
  - intros ops. apply undoAll_Reached; [done|].
    apply (Coherent_performAll (pages d) ops d Hv).
    unfold Coherent. rewrite Hh. simpl. split; [constructor | done].
  - intros r. by apply reverse_apply.
Qed.

Lemma C7_witness :
  let d := mkDocument (map (fun i => mkPage i Deg0 false) (seq 0 5))
                      (mkHistory [] []) "five.pdf" in
  (forall ops : list EditOp,
      pages (undoAll (performAll ops d)) = pages d /\
      canUndo (undoAll (performAll ops d)) = false) /\
  (forall r : Request,
      reverse (construct r (pages d)) (apply (construct r (pages d)) (pages d))
      = pages d).
Proof.
  apply C7_undo_all_restores_original.
  - repeat constructor.
  - reflexivity.
Defined.

(** C8: executing a command on a history with undone commands empties the
    undone stack, so canRedo is false right after; through the window, an
    edit that names a target leaves the document unable to redo and the redo
    action disabled. *)
Theorem C8_execute_clears_redo (w : AppWindow) (d : Document) (r : Request) :
  m_document w = Some d ->
  canRedo d = true ->
  emptyRequest r = false ->
  (forall c : Command,
      undone (history (execute c d)) = [] /\ canRedo (execute c d) = false) /\
  exists d',
    m_document (editDocument (edit r) w) = Some d' /\
    canRedo d' = false /\
    enabled RedoAction (editDocument (edit r) w) = false.
Proof.
  intros Hd Hr He. split; [done|].
  unfold editDocument, edit. rewrite Hd, He.
  exists (execute (construct r (pages d)) d).
  rewrite (onCommandExecuted_eq _ (execute (construct r (pages d)) d));
    [|by destruct w].
  split; [by destruct w|]. split; [done|].
  unfold enabled. by destruct w as [? ? ? [] ? ? ? ? ? ? ? ?].
Qed.

Lemma C8_witness :
  let w := window (@run sampleCodec [Activate UndoAction None] edited) in
  let d := mkDocument
             [mkPage 0 Deg0 false; mkPage 1 Deg0 false; mkPage 2 Deg0 false]
             (mkHistory [] [RotatePagesRight [0%nat]]) "three.pdf" in
  let r := ReqRemovePages [1%nat] in
  (forall c : Command,
      undone (history (execute c d)) = [] /\ canRedo (execute c d) = false) /\
  exists d',
    m_document (editDocument (edit r) w) = Some d' /\
    canRedo d' = false /\
    enabled RedoAction (editDocument (edit r) w) = false.
Proof.
  apply C8_execute_clears_redo; reflexivity.
Defined.

(** C9: loadWindowState always returns a window state: the stored width,
    height and is-maximized when the key file yields all three, and the
    default 800 x 600, not maximized, as soon as one of them is absent or
    malformed, or the settings file was missing or unreadable. *)
Theorem C9_loadWindowState_total
        `{codec : KeyFileCodec} (sm : SettingsManager) :
  (forall w h m,
      get_integer (m_keyFile sm) groupName keys_width = Some w ->
      get_integer (m_keyFile sm) groupName keys_height = Some h ->
      get_boolean (m_keyFile sm) groupName keys_isMaximized = Some m ->
      loadWindowState sm = mkWindowState w h m) /\
  (get_integer (m_keyFile sm) groupName keys_width = None \/
   get_integer (m_keyFile sm) groupName keys_height = None \/
   get_boolean (m_keyFile sm) groupName keys_isMaximized = None ->
   loadWindowState sm = defaultWindowState) /\
  loadWindowState (loadConfigFile None) = defaultWindowState /\
  defaultWindowState = mkWindowState 800 600 false.
Proof.
  unfold loadWindowState, readWindowState. split; [|split; [|split]].
  - intros w h m -> -> ->. done.
  - intros [-> | [H | H]]; simpl; [done| |].
    + destruct (get_integer _ _ keys_width); simpl; [|done]. by rewrite H.
    + destruct (get_integer _ _ keys_width); simpl; [|done].
      destruct (get_integer _ _ keys_height); simpl; [|done]. by rewrite H.
  - done.
  - done.
Qed.

Lemma C9_witness :
  let sm := @loadConfigFile
              (Some (<[(groupName, keys_width) := "1024"%string]>
                       (<[(groupName, keys_height) := "x"%string]> ∅))) in
  @loadWindowState sampleCodec sm = defaultWindowState.
Proof.
  intros sm.
  apply (proj1 (proj2 (@C9_loadWindowState_total sampleCodec sm))).
  right. left. vm_compute. reflexivity.
Defined.

(** When onSelectedPagesChanged leaves remove-previous enabled, exactly
    one page is selected and it is not the first; when it leaves remove-next
    enabled, exactly one page is selected and it is not the last; and, the
    selected indexes being indexes of pages, the range the action's handler
    then passes to removePageRange is non-empty and lies within
    [0, pageCount). *)
Lemma onSelectedPagesChanged_remove_ranges (w : AppWindow) :
  Forall (fun i => (i < numberOfPages w)%nat) (m_view_selected w) ->
  let w' := onSelectedPagesChanged w in
  (enabled RemovePreviousAction w' = true ->
   (exists i, m_view_selected w' = [i] /\ i <> 0%nat) /\
   0 <= fst (previousPagesRange w') <= snd (previousPagesRange w') /\
   snd (previousPagesRange w') < Z.of_nat (numberOfPages w') /\
   emptyRequest (ReqRemovePageRange (fst (previousPagesRange w'))
                                    (snd (previousPagesRange w'))) = false) /\
  (enabled RemoveNextAction w' = true ->
   (exists i, m_view_selected w' = [i] /\
              Z.of_nat i <> Z.of_nat (numberOfPages w') - 1) /\
   0 <= fst (nextPagesRange w') <= snd (nextPagesRange w') /\
   snd (nextPagesRange w') < Z.of_nat (numberOfPages w') /\
   emptyRequest (ReqRemovePageRange (fst (nextPagesRange w'))
                                    (snd (nextPagesRange w'))) = false).
Proof.
  intros Hsel w'. unfold w'. rewrite onSelectedPagesChanged_eq.
  unfold enabled, previousPagesRange, nextPagesRange, getSelectedChildIndex,
    numberOfPages in *.
  destruct w as [doc flag ws acts sel zoom st sub rev pres lg rs].
  simpl in *. destruct sel as [|i [|j l]]; simpl; try done.
  apply Forall_cons in Hsel as [Hi _].
  split; intros He; apply negb_true_iff, bool_decide_eq_false in He.
  - split; [exists i; split; [done | lia]|]. repeat split; try lia.
    apply bool_decide_eq_false. lia.
  - split; [exists i; split; [done | lia]|]. repeat split; try lia.
    apply bool_decide_eq_false. lia.
Qed.

(** C10, on the code: three.pdf is opened and its second page selected, so
    remove-next is enabled; activating it removes the third page.  Nothing
    recomputes the flag: remove-next is still enabled with the selected page
    now the last of two, and the range its handler would pass to
    removePageRange, from 2 to 1, is empty. *)
Theorem C10_remove_next_stays_enabled_on_last_page :
  let s := @run sampleCodec
                [Activate OpenAction (Some threePages);
                 SelectionChanged [1%nat];
                 Activate RemoveNextAction None]
                (@initial sampleCodec None) in
  m_view_selected (window s) = [1%nat] /\
  numberOfPages (window s) = 2%nat /\
  enabled RemoveNextAction (window s) = true /\
  nextPagesRange (window s) = (2, 1) /\
  emptyRequest (ReqRemovePageRange (fst (nextPagesRange (window s)))
                                   (snd (nextPagesRange (window s)))) = true.
Proof. vm_compute. repeat split. Qed.

(** The saving flag is cleared by the thread after its emit, so the handler
    of the signal can run first and enable save-document while the flag is
    still set; a save requested then has its flag cleared by the first thread,
    and a delete-event destroys the window while the second thread is about
    to save. *)
Lemma saving_flag_cleared_under_second_save :
  let racing := @run sampleCodec [WorkerStep 0; WorkerStep 0; Deliver] saving in
  let later :=
    @run sampleCodec
         [Activate SaveAction (Some otherDestination); WorkerStep 0] racing in
  phase (window racing) = Saving /\
  enabled SaveAction (window racing) = true /\
  map w_pc (threads later) = [Finished; AtSave] /\
  phase (window later) = Idle /\
  destroyed (@exec sampleCodec DeleteEvent later) = true.
Proof. vm_compute. repeat split. Qed.

(** ** Further facts *)

Module SessionFacts.
Import Backend Settings App BackendNotions AppNotions BackendFacts AppFacts.
Import SessionNotions.

Ltac distinct_keys :=
  let H := fresh in intros H; cbv in H; discriminate H.

Section WithCodec.
Context `{codec : KeyFileCodec}.

Lemma saved_width ws sm :
  m_keyFile (saveWindowState ws sm) !! (groupName, keys_width)
  = Some (print_integer (width ws)).
Proof.
  unfold saveWindowState, set_integer, set_boolean, KeyFile. cbn [m_keyFile].
  rewrite lookup_insert_ne by distinct_keys.
  rewrite lookup_insert_ne by distinct_keys.
  by rewrite lookup_insert_eq.
Qed.

Lemma saved_height ws sm :
  m_keyFile (saveWindowState ws sm) !! (groupName, keys_height)
  = Some (print_integer (height ws)).
Proof.
  unfold saveWindowState, set_integer, set_boolean, KeyFile. cbn [m_keyFile].
  rewrite lookup_insert_ne by distinct_keys.
  by rewrite lookup_insert_eq.
Qed.

Lemma saved_isMaximized ws sm :
  m_keyFile (saveWindowState ws sm) !! (groupName, keys_isMaximized)
  = Some (print_boolean (isMaximized ws)).
Proof.
  unfold saveWindowState, set_integer, set_boolean, KeyFile. cbn [m_keyFile].
  by rewrite lookup_insert_eq.
Qed.

Lemma readWindowState_saveWindowState ws sm :
  readsBack ws -> readWindowState (m_keyFile (saveWindowState ws sm)) = Some ws.
Proof.
  intros (Hw & Hh & Hm).
  unfold readWindowState, get_integer, get_boolean.
  rewrite saved_width, saved_height, saved_isMaximized.
  cbn [mbind option_bind]. rewrite Hw. cbn [mbind option_bind].
  rewrite Hh. cbn [mbind option_bind]. rewrite Hm. by destruct ws.
Qed.

Lemma loadWindowState_saveWindowState ws sm :
  readsBack ws -> loadWindowState (saveWindowState ws sm) = ws.
Proof.
  intros H. unfold loadWindowState.
  by rewrite readWindowState_saveWindowState.
Qed.

Lemma saveWindowState_lookup_other ws sm k :
  k ∉ windowStateKeys ->
  m_keyFile (saveWindowState ws sm) !! k = m_keyFile sm !! k.
Proof.
  intros Hk. unfold windowStateKeys in Hk.
  unfold saveWindowState, set_integer, set_boolean, KeyFile. cbn [m_keyFile].
  rewrite !lookup_insert_ne; [done|..]; intros <-; apply Hk;
    repeat ((by left) || right).
Qed.

Lemma saveWindowState_twice ws1 ws2 sm :
  saveWindowState ws2 (saveWindowState ws1 sm) = saveWindowState ws2 sm.
Proof.
  unfold saveWindowState, set_integer, set_boolean, KeyFile.
  cbn [m_keyFile]. f_equal.
  apply map_eq. intros k.
  destruct (decide ((groupName, keys_isMaximized) = k)) as [<-|H1];
    [by rewrite !lookup_insert_eq|].
  rewrite !(lookup_insert_ne _ (groupName, keys_isMaximized)) by done.
  destruct (decide ((groupName, keys_height) = k)) as [<-|H2];
    [by rewrite !lookup_insert_eq|].
  rewrite !(lookup_insert_ne _ (groupName, keys_height)) by done.
  destruct (decide ((groupName, keys_width) = k)) as [<-|H3];
    [by rewrite !lookup_insert_eq|].
  by rewrite !lookup_insert_ne by done.
Qed.

End WithCodec.

(** *** Undo and redo are offered only when possible *)

Lemma historySound_onSelectedPagesChanged w :
  historySound w -> historySound (onSelectedPagesChanged w).
Proof.
  rewrite onSelectedPagesChanged_eq.
  destruct w as [doc flag ws [] sel zoom st sub rev pres lg rs]. exact id.
Qed.

Lemma historySound_onCommandExecuted w d :
  m_document w = Some d -> raised w = [] ->
  historySound (onCommandExecuted w).
Proof.
  intros Hd Hr. rewrite (onCommandExecuted_eq w d Hd).
  destruct w as [doc flag ws [] sel zoom st sub rev pres lg rs].
  cbn in Hd, Hr. subst doc rs. unfold historySound, historyActions. cbn.
  by destruct (canUndo d), (canRedo d).
Qed.

Lemma historySound_editDocument r w :
  historySound w -> historySound (editDocument (edit r) w).
Proof.
  intros H. unfold editDocument, edit.
  destruct (m_document w) as [d|] eqn:Hd; [|done].
  destruct (emptyRequest r).
  - destruct w as [doc flag ws [] sel zoom st sub rev pres lg rs].
    cbn in Hd. by subst doc.
  - apply (historySound_onCommandExecuted _ (execute (construct r (pages d)) d)).
    + by destruct w.
    + destruct H as [Hr _]. by destruct w.
Qed.

Lemma historySound_onUndoAction w :
  historySound w -> enabled UndoAction w = true ->
  historySound (onUndoAction w).
Proof.
  intros [Hr H] Hen. unfold onUndoAction, historyStep, undoCommand.
  destruct (m_document w) as [d|] eqn:Hd;
    [|destruct H as [Hu _]; unfold enabled in Hen; cbn in Hen; congruence].
  destruct H as [Hu _]. specialize (Hu Hen).
  unfold canUndo in Hu. unfold undo.
  destruct (applied (history d)) as [|c cs]; [done|].
  eapply historySound_onCommandExecuted; by destruct w.
Qed.

Lemma historySound_onRedoAction w :
  historySound w -> enabled RedoAction w = true ->
  historySound (onRedoAction w).
Proof.
  intros [Hr H] Hen. unfold onRedoAction, historyStep, redoCommand.
  destruct (m_document w) as [d|] eqn:Hd;
    [|destruct H as [_ Hu]; unfold enabled in Hen; cbn in Hen; congruence].
  destruct H as [_ Hu]. specialize (Hu Hen).
  unfold canRedo in Hu. unfold redo.
  destruct (undone (history d)) as [|c cs]; [done|].
  eapply historySound_onCommandExecuted; by destruct w.
Qed.

Lemma historySound_tryOpenDocument file w :
  historySound w -> historySound (tryOpenDocument file w).
Proof.
  intros [Hr H]. unfold tryOpenDocument, open.
  destruct w as [doc flag ws [] sel zoom st sub rev pres lg rs].
  cbn in Hr. subst rs.
  destruct (file_pages file) as [n|]; [done|].
  unfold historySound. cbn. by destruct doc.
Qed.

Lemma historySound_enableEditingActions w :
  historySound w -> historySound (enableEditingActions w).
Proof.
  intros [Hr H]. destruct (m_document w) as [d|] eqn:Hd.
  - rewrite (enableEditingActions_eq w d Hd).
    destruct w as [doc flag ws [] sel zoom st sub rev pres lg rs].
    cbn in Hd, Hr. subst doc rs.
    unfold historySound, syncedActions, historyActions. cbn.
    by destruct (canUndo d), (canRedo d).
  - unfold enableEditingActions.
    rewrite onCommandExecuted_none, onSelectedPagesChanged_eq.
    + destruct w as [doc flag ws [] sel zoom st sub rev pres lg rs].
      cbn in Hd, Hr. subst doc rs. exact (conj eq_refl H).
    + rewrite onSelectedPagesChanged_eq. by destruct w.
Qed.

(** *** What the handlers leave alone *)

Lemma fixedPart_onSelectedPagesChanged w :
  fixedPart (onSelectedPagesChanged w) = fixedPart w.
Proof. rewrite onSelectedPagesChanged_eq. by destruct w. Qed.

Lemma fixedPart_onCommandExecuted w :
  fixedPart (onCommandExecuted w) = fixedPart w.
Proof.
  destruct (m_document w) as [d|] eqn:Hd.
  - rewrite (onCommandExecuted_eq w d Hd). by destruct w.
  - by rewrite onCommandExecuted_none.
Qed.

Lemma fixedPart_enableEditingActions w :
  fixedPart (enableEditingActions w) = fixedPart w.
Proof.
  unfold enableEditingActions.
  rewrite fixedPart_onCommandExecuted, fixedPart_onSelectedPagesChanged.
  by destruct w.
Qed.

Lemma fixedPart_editDocument op w :
  fixedPart (editDocument op w) = fixedPart w.
Proof.
  unfold editDocument. destruct (m_document w) as [d|]; [|done].
  destruct (op d) as [d' [|]].
  - rewrite fixedPart_onCommandExecuted. by destruct w.
  - by destruct w.
Qed.

Lemma fixedPart_historyStep op w :
  fixedPart (historyStep op w) = fixedPart w.
Proof.
  unfold historyStep. destruct (m_document w) as [d|]; [|done].
  destruct (op d) as [e|d'].
  - by destruct w.
  - rewrite fixedPart_onCommandExecuted. by destruct w.
Qed.

Lemma fixedPart_tryOpenDocument file w :
  fixedPart (tryOpenDocument file w) = fixedPart w.
Proof.
  unfold tryOpenDocument. destruct (open file) as [e|d']; by destruct w.
Qed.

Lemma fixedPart_handler a chosen s :
  a <> SaveAction ->
  fixedPart (window (handler a chosen s)) = fixedPart (window s) /\
  threads (handler a chosen s) = threads s.
Proof.
  intros Ha.
  destruct a; cbn [handler]; unfold onWindow, with_window;
    cbn [window threads];
    unfold onUndoAction, onRedoAction, onRemoveSelectedPages,
      onRemoveUnselectedPages, onRemovePreviousPages, onRemoveNextPages,
      onRotatePagesRight, onRotatePagesLeft;
    rewrite ?fixedPart_editDocument, ?fixedPart_historyStep; try done.
  unfold onOpenAction. destruct chosen as [file|]; [|done].
  unfold onWindow, with_window. cbn [window threads].
  by rewrite fixedPart_tryOpenDocument.
Qed.

Lemma fixedPart_deliver s :
  fixedPart (window (deliver s)) = fixedPart (window s) /\
  threads (deliver s) = threads s.
Proof.
  unfold deliver. destruct (mainLoop s) as [|[] q]; [done| |];
    unfold onWindow, with_window, with_mainLoop; cbn [window threads];
    (split; [|done]).
  - unfold onSaved. rewrite fixedPart_enableEditingActions.
    by destruct (window s).
  - unfold onSavingFailed.
    pose proof (fixedPart_enableEditingActions
                  (with_savingRevealer Hidden (window s))) as He.
    destruct (enableEditingActions _). unfold fixedPart in *. cbn in *.
    rewrite He. by destruct (window s).
Qed.

(** *** The header names the open document *)

Lemma chromeSound_onSelectedPagesChanged w :
  chromeSound w -> chromeSound (onSelectedPagesChanged w).
Proof.
  rewrite onSelectedPagesChanged_eq.
  destruct w as [doc flag ws [] sel zoom st sub rev pres lg rs]. exact id.
Qed.

Lemma chromeSound_onCommandExecuted w :
  chromeSound w -> chromeSound (onCommandExecuted w).
Proof.
  destruct (m_document w) as [d|] eqn:Hd.
  - rewrite (onCommandExecuted_eq w d Hd).
    destruct w as [doc flag ws [] sel zoom st sub rev pres lg rs]. exact id.
  - by rewrite onCommandExecuted_none.
Qed.

Lemma chromeSound_enableEditingActions w :
  chromeSound w -> chromeSound (enableEditingActions w).
Proof.
  intros H. unfold enableEditingActions.
  apply chromeSound_onCommandExecuted, chromeSound_onSelectedPagesChanged.
  by destruct w.
Qed.

Lemma chromeSound_editDocument r w :
  chromeSound w -> chromeSound (editDocument (edit r) w).
Proof.
  intros H. unfold editDocument, edit.
  destruct (m_document w) as [d|] eqn:Hd; [|exact H].
  destruct (emptyRequest r).
  - unfold chromeSound in *. destruct w. cbn in *. by subst.
  - apply chromeSound_onCommandExecuted. unfold chromeSound in *.
    destruct w. cbn in *. subst. by cbn in *.
Qed.

Lemma chromeSound_historyStep_undo w :
  chromeSound w -> chromeSound (historyStep undoCommand w).
Proof.
  intros H. unfold historyStep, undoCommand, undo.
  destruct (m_document w) as [d|] eqn:Hd; [|exact H].
  destruct (applied (history d)) as [|c cs].
  - unfold chromeSound in *. destruct w. cbn in *. by subst.
  - apply chromeSound_onCommandExecuted. unfold chromeSound in *.
    destruct w. cbn in *. subst. by cbn in *.
Qed.

Lemma chromeSound_historyStep_redo w :
  chromeSound w -> chromeSound (historyStep redoCommand w).
Proof.
  intros H. unfold historyStep, redoCommand, redo.
  destruct (m_document w) as [d|] eqn:Hd; [|exact H].
  destruct (undone (history d)) as [|c cs].
  - unfold chromeSound in *. destruct w. cbn in *. by subst.
  - apply chromeSound_onCommandExecuted. unfold chromeSound in *.
    destruct w. cbn in *. subst. by cbn in *.
Qed.

Lemma chromeSound_tryOpenDocument file w :
  chromeSound w -> chromeSound (tryOpenDocument file w).
Proof.
  intros H. unfold tryOpenDocument, chromeSound in *.
  destruct (open file) as [e|d']; destruct w; by cbn in *.
Qed.

(** *** The document stays, and nothing is saved without one *)

Lemma m_document_onSelectedPagesChanged w :
  m_document (onSelectedPagesChanged w) = m_document w.
Proof. rewrite onSelectedPagesChanged_eq. by destruct w. Qed.

Lemma m_document_onCommandExecuted w :
  m_document (onCommandExecuted w) = m_document w.
Proof.
  destruct (m_document w) as [d|] eqn:Hd.
  - rewrite (onCommandExecuted_eq w d Hd). by destruct w.
  - by rewrite onCommandExecuted_none.
Qed.

Lemma m_document_enableEditingActions w :
  m_document (enableEditingActions w) = m_document w.
Proof.
  unfold enableEditingActions.
  rewrite m_document_onCommandExecuted, m_document_onSelectedPagesChanged.
  by destruct w.
Qed.

Lemma is_Some_editDocument op w :
  is_Some (m_document w) -> is_Some (m_document (editDocument op w)).
Proof.
  intros [d Hd]. unfold editDocument. rewrite Hd.
  destruct (op d) as [d' [|]].
  - rewrite m_document_onCommandExecuted. by destruct w.
  - by destruct w.
Qed.

Lemma is_Some_historyStep op w :
  is_Some (m_document w) -> is_Some (m_document (historyStep op w)).
Proof.
  intros [d Hd]. unfold historyStep. rewrite Hd.
  destruct (op d) as [e|d'].
  - destruct w. by cbn in *.
  - rewrite m_document_onCommandExecuted. by destruct w.
Qed.

Lemma is_Some_tryOpenDocument file w :
  is_Some (m_document w) -> is_Some (m_document (tryOpenDocument file w)).
Proof.
  intros [d Hd]. unfold tryOpenDocument.
  destruct (open file) as [e|d']; destruct w; by cbn in *.
Qed.

(** *** What the page actions leave of the pages *)

Lemma survivors_none sel k ps :
  (forall j, sel j = false) -> survivors sel k ps = ps.
Proof.
  intros H. revert k. induction ps as [|p ps IH]; intros k; cbn; [done|].
  by rewrite H, IH.
Qed.

Lemma rotateAt_none sel dir k ps :
  (forall j, sel j = false) -> rotateAt sel dir k ps = ps.
Proof.
  intros H. revert k. induction ps as [|p ps IH]; intros k; cbn; [done|].
  by rewrite H, IH.
Qed.

Lemma apply_emptyRequest r ps :
  emptyRequest r = true -> apply (construct r ps) ps = ps.
Proof.
  destruct r as [idx|a b|idx|idx]; cbn; intros He.
  - destruct idx; [|done]. by apply survivors_none.
  - apply survivors_none. intros j. unfold inRange.
    apply bool_decide_eq_true in He. apply bool_decide_eq_false. lia.
  - destruct idx; [|done]. by apply rotateAt_none.
  - destruct idx; [|done]. by apply rotateAt_none.
Qed.

Lemma shownPages_editDocument r w :
  shownPages (editDocument (edit r) w)
  = apply (construct r (shownPages w)) (shownPages w).
Proof.
  unfold shownPages, editDocument, edit.
  destruct (m_document w) as [d|] eqn:Hd.
  - destruct (emptyRequest r) eqn:He; cbn iota beta.
    + unfold with_document. cbn [m_document]. by rewrite apply_emptyRequest.
    + rewrite m_document_onCommandExecuted. by destruct w.
  - rewrite Hd. by destruct r.
Qed.

Lemma survivors_previous i ps : forall k,
  survivors (inRange 0 (Z.of_nat i - 1)) k ps = drop (i - k) ps.
Proof.
  induction ps as [|p ps IH]; intros k; cbn [survivors].
  - by rewrite drop_nil.
  - rewrite IH. unfold inRange. case_bool_decide.
    + replace (i - k)%nat with (S (i - S k)) by lia. done.
    + replace (i - k)%nat with 0%nat by lia.
      replace (i - S k)%nat with 0%nat by lia. done.
Qed.

Lemma survivors_next i last ps : forall k,
  Z.of_nat (k + length ps) - 1 <= last ->
  survivors (inRange (Z.of_nat i + 1) last) k ps = take (S i - k) ps.
Proof.
  induction ps as [|p ps IH]; intros k Hk; cbn [survivors].
  - by rewrite take_nil.
  - cbn [length] in Hk. rewrite IH by lia. unfold inRange. case_bool_decide.
    + replace (S i - k)%nat with 0%nat by lia.
      replace (S i - S k)%nat with 0%nat by lia. done.
    + replace (S i - k)%nat with (S (S i - S k)) by lia. done.
Qed.

Lemma survivors_filter (P : nat -> Prop) `{!forall k, Decision (P k)} sel ps :
  forall k,
  (forall j, (k <= j < k + length ps)%nat -> sel j = false <-> P j) ->
  survivors sel k ps
  = (filter (fun kp => P kp.1) (zip (seq k (length ps)) ps)).*2.
Proof.
  induction ps as [|p ps IH]; intros k Hsel; [done|].
  cbn [survivors length seq zip zip_with].
  rewrite filter_cons. cbn [fst].
  rewrite (IH (S k)) by (intros j Hj; apply Hsel; cbn [length]; lia).
  specialize (Hsel k). cbn [length] in Hsel.
  destruct (sel k); destruct (decide (P k)) as [Hp|Hp]; try done.
  - exfalso. apply Hsel in Hp; [done|lia].
  - exfalso. apply Hp, Hsel; [lia|done].
Qed.

Section WithCodec.
Context `{codec : KeyFileCodec}.

Lemma exec_keeps_document e s :
  is_Some (m_document (window s)) ->
  is_Some (m_document (window (exec e s))).
Proof.
  intros H. unfold exec. destruct (destroyed s); [done|].
  destruct e as [a chosen|sel| | |mx w h|mx|i].
  - unfold activate. destruct (enabled a (window s)); [|done].
    destruct a; cbn [handler]; unfold onWindow, with_window; cbn [window];
      try (by apply is_Some_editDocument);
      try (by apply is_Some_historyStep).
    + unfold onOpenAction. destruct chosen as [file|]; [|done].
      by apply is_Some_tryOpenDocument.
    + unfold onSaveAction. destruct chosen as [file|]; [|done].
      unfold trySaveDocument, with_threads, with_window. cbn [window].
      rewrite disableEditingActions_eq. by destruct (window s).
    + unfold onCancelSelection. rewrite m_document_onSelectedPagesChanged.
      by destruct (window s).
    + by destruct (window s).
    + by destruct (window s).
  - unfold onWindow, with_window. cbn [window].
    rewrite m_document_onSelectedPagesChanged. by destruct (window s).
  - unfold deliver. destruct (mainLoop s) as [|[] q]; [done| |];
      unfold onWindow, with_window, with_mainLoop; cbn [window].
    + unfold onSaved. rewrite m_document_enableEditingActions.
      by destruct (window s).
    + unfold onSavingFailed.
      pose proof (m_document_enableEditingActions
                    (with_savingRevealer Hidden (window s))) as He.
      destruct (enableEditingActions _). cbn in *. rewrite He.
      by destruct (window s).
  - unfold deleteEvent. by destruct (on_delete_event (window s)).
  - unfold onWindow, with_window, onSizeAllocate. cbn [window].
    destruct mx; [done|]. by destruct (window s).
  - unfold onWindow, with_window. cbn [window]. by destruct (window s).
  - rewrite (workerStep_window i s). by destruct (window s).
Qed.

Lemma documentGuard_exec e s : documentGuard s -> documentGuard (exec e s).
Proof.
  intros H. destruct (m_document (window s)) as [d|] eqn:Hd.
  - (* a document is set and stays *)
    intros Hn. destruct (exec_keeps_document e s) as [d' Hd'];
      [by rewrite Hd | congruence].
  - destruct (H Hd) as (Hsave & Hts & Hq).
    unfold exec. destruct (destroyed s); [done|].
    destruct e as [a chosen|sel| | |mx w h|mx|i].
    + unfold activate. destruct (enabled a (window s)) eqn:Hen; [|done].
      destruct a; cbn [handler];
        unfold onWindow, with_window, documentGuard;
        cbn [window threads mainLoop];
        unfold onUndoAction, onRedoAction, onRemoveSelectedPages,
          onRemoveUnselectedPages, onRemovePreviousPages, onRemoveNextPages,
          onRotatePagesRight, onRotatePagesLeft, editDocument, historyStep;
        rewrite ?Hd; try done.
      * unfold onOpenAction. destruct chosen as [file|]; [|done].
        unfold onWindow, with_window. cbn [window threads mainLoop].
        unfold tryOpenDocument.
        destruct (open file) as [err|d'].
        -- intros _. split; [|done].
           destruct (window s) as [? ? ? [] ? ? ? ? ? ? ? ?]. by cbn in *.
        -- intros Hn. destruct (window s). by cbn in Hn.
      * unfold enabled in Hen. cbn in Hen. congruence.
    + unfold onWindow, with_window, documentGuard.
      cbn [window threads mainLoop]. rewrite onSelectedPagesChanged_eq.
      intros _. split; [|done].
      destruct (window s) as [? ? ? [] ? ? ? ? ? ? ? ?]. by cbn in *.
    + unfold deliver. by rewrite Hq.
    + unfold deleteEvent. destruct (on_delete_event (window s)); [done|].
      unfold documentGuard. by cbn [window threads mainLoop].
    + unfold onWindow, with_window, documentGuard, onSizeAllocate.
      cbn [window threads mainLoop]. intros _. split; [|done].
      destruct mx; [done|]. by destruct (window s).
    + unfold onWindow, with_window, documentGuard.
      cbn [window threads mainLoop]. intros _. split; [|done].
      by destruct (window s).
    + unfold workerStep. by rewrite Hts.
Qed.

Lemma documentGuard_run es : forall s,
  documentGuard s -> documentGuard (run es s).
Proof.
  unfold run. induction es as [|e es IH]; intros s H; cbn [foldl]; [done|].
  apply IH. by apply documentGuard_exec.
Qed.

(** *** A set saving flag has a thread behind it *)

Lemma savingHasThread_exec e s :
  savingHasThread s -> savingHasThread (exec e s).
Proof.
  intros H. unfold exec. destruct (destroyed s); [done|].
  destruct e as [a chosen|sel| | |mx w h|mx|i].
  - unfold activate. destruct (enabled a (window s)); [|done].
    destruct (decide (a = SaveAction)) as [->|Ha].
    + cbn [handler]. unfold onSaveAction.
      destruct chosen as [file|]; [|done]. intros _.
      exists (length (threads s)), (mkWorker file AtSave None []).
      split; [|done]. unfold trySaveDocument, with_threads.
      cbn [threads]. by apply list_lookup_middle.
    + destruct (fixedPart_handler a chosen s Ha) as [Hf Ht].
      unfold savingHasThread. rewrite Ht.
      injection Hf as Hflag _. by rewrite Hflag.
  - unfold savingHasThread, onWindow, with_window. cbn [window threads].
    pose proof (fixedPart_onSelectedPagesChanged
                  (with_selected sel (window s))) as Hf.
    injection Hf as Hflag _. rewrite Hflag. exact H.
  - destruct (fixedPart_deliver s) as [Hf Ht].
    unfold savingHasThread. rewrite Ht.
    injection Hf as Hflag _. by rewrite Hflag.
  - unfold deleteEvent. by destruct (on_delete_event (window s)).
  - unfold savingHasThread, onWindow, with_window, onSizeAllocate.
    cbn [window threads]. destruct mx; exact H.
  - exact H.
  - destruct (threads s !! i) as [t|] eqn:Hi;
      [|by unfold workerStep; rewrite Hi].
    rewrite (workerStep_eq i s t Hi). unfold savingHasThread.
    cbn [window threads]. unfold stepWindow.
    destruct (w_pc t) eqn:Hpc.
    + intros Hflag. destruct (H Hflag) as (j & u & Hj & Hu).
      destruct (decide (i = j)) as [->|Hne].
      * exists j, (advance (m_document (window s)) t).
        rewrite list_lookup_insert_eq by (by eapply lookup_lt_Some).
        split; [done|]. unfold advance. rewrite Hpc.
        by destruct (m_document (window s) ≫= _).
      * exists j, u. by rewrite list_lookup_insert_ne.
    + intros Hflag. destruct (H Hflag) as (j & u & Hj & Hu).
      destruct (decide (i = j)) as [->|Hne].
      * exists j, (advance (m_document (window s)) t).
        rewrite list_lookup_insert_eq by (by eapply lookup_lt_Some).
        split; [done|]. unfold advance. by rewrite Hpc.
      * exists j, u. by rewrite list_lookup_insert_ne.
    + intros Hflag.
      assert (m_isSavingDocument (window s) = true) as Hflag'
        by (by destruct (window s)).
      destruct (H Hflag') as (j & u & Hj & Hu).
      destruct (decide (i = j)) as [->|Hne].
      * exists j, (advance (m_document (window s)) t).
        rewrite list_lookup_insert_eq by (by eapply lookup_lt_Some).
        split; [done|]. unfold advance. by rewrite Hpc.
      * exists j, u. by rewrite list_lookup_insert_ne.
    + intros Hflag. by destruct (window s).
    + intros Hflag. destruct (H Hflag) as (j & u & Hj & Hu).
      destruct (decide (i = j)) as [->|Hne].
      * rewrite Hi in Hj. injection Hj as <-. congruence.
      * exists j, u. by rewrite list_lookup_insert_ne.
Qed.

Lemma savingHasThread_run es : forall s,
  savingHasThread s -> savingHasThread (run es s).
Proof.
  unfold run. induction es as [|e es IH]; intros s H; cbn [foldl]; [done|].
  apply IH. by apply savingHasThread_exec.
Qed.

(** *** The remembered window state *)

Lemma exec_windowState e s :
  (~ resizes e ->
   width (m_windowState (window (exec e s))) = width (m_windowState (window s))
   /\ height (m_windowState (window (exec e s)))
      = height (m_windowState (window s))) /\
  (~ changesMaximized e ->
   isMaximized (m_windowState (window (exec e s)))
   = isMaximized (m_windowState (window s))).
Proof.
  unfold exec. destruct (destroyed s); [done|].
  destruct e as [a chosen|sel| | |mx w h|mx|i].
  - unfold activate. destruct (enabled a (window s)); [|done].
    destruct (decide (a = SaveAction)) as [->|Ha].
    + cbn [handler]. unfold onSaveAction.
      destruct chosen as [file|]; [|done].
      unfold trySaveDocument, with_threads, with_window. cbn [window].
      rewrite disableEditingActions_eq. by destruct (window s).
    + destruct (fixedPart_handler a chosen s Ha) as [Hf _].
      injection Hf as _ Hws. by rewrite Hws.
  - unfold onWindow, with_window. cbn [window].
    pose proof (fixedPart_onSelectedPagesChanged
                  (with_selected sel (window s))) as Hf.
    injection Hf as _ Hws. rewrite Hws. by destruct (window s).
  - destruct (fixedPart_deliver s) as [Hf _].
    injection Hf as _ Hws. by rewrite Hws.
  - unfold deleteEvent. by destruct (on_delete_event (window s)).
  - unfold onWindow, with_window, onSizeAllocate. cbn [window].
    destruct mx; [done|]. split; [by intros []|]. by destruct (window s).
  - unfold onWindow, with_window, onWindowStateEvent. cbn [window].
    split; [|by intros []]. by destruct (window s).
  - rewrite (workerStep_window i s). by destruct (window s).
Qed.

(** *** What the user is shown of a save's outcome *)

Lemma onSaved_eq w d :
  m_document w = Some d ->
  onSaved w = with_actions (syncedActions (m_view_selected w) d)
                           (with_savingRevealer RevealSaved w).
Proof.
  intros Hd. unfold onSaved.
  rewrite (enableEditingActions_eq _ d) by (by destruct w). by destruct w.
Qed.

Lemma onSavingFailed_eq w d :
  m_document w = Some d ->
  onSavingFailed w
  = present (ErrorDialog "The current document could not be saved")
            (with_actions (syncedActions (m_view_selected w) d)
                          (with_savingRevealer Hidden w)).
Proof.
  intros Hd. unfold onSavingFailed.
  rewrite (enableEditingActions_eq _ d) by (by destruct w). by destruct w.
Qed.

Lemma save_outcome file s d es :
  destroyed s = false -> mainLoop s = [] ->
  m_document (window s) = Some d ->
  let i := length (threads s) in
  es = [WorkerStep i; WorkerStep i; WorkerStep i; Deliver] \/
  es = [WorkerStep i; WorkerStep i; Deliver; WorkerStep i] ->
  let s' := run es (trySaveDocument file s) in
  match save d file with
  | Some bytes =>
      writtenBy i s' = Some bytes /\
      m_savingRevealer (window s') = RevealSaved /\
      presented (window s') = presented (window s) /\
      logged (window s') = logged (window s)
  | None =>
      writtenBy i s' = None /\
      m_savingRevealer (window s') = Hidden /\
      presented (window s')
      = presented (window s)
        ++ [ErrorDialog "The current document could not be saved"] /\
      logged (window s')
      = logged (window s)
        ++ ["Saving the document failed";
            "The destination file was: " +:+ file_path file]
  end.
Proof.
  destruct s as [w ts q dz sm]. cbn [destroyed mainLoop window threads].
  intros -> -> Hd Hes.
  unfold trySaveDocument, with_threads, with_window, writtenBy.
  cbn [destroyed mainLoop window threads settings].
  rewrite disableEditingActions_eq.
  set (w0 := with_isSavingDocument true
               (with_actions allDisabled
                  (with_savingRevealer RevealSaving w))).
  assert (Hd0 : m_document w0 = Some d) by (by destruct w).
  unfold run.
  destruct (save d file) as [bytes|] eqn:Hs;
    destruct Hes as [-> | ->]; cbn [foldl].
  - rewrite (step_save_ok _ _ _ _ _ _ d bytes Hd0 Hs).
    rewrite step_emit_saved, step_clear_flag. cbn [app].
    rewrite deliver_head. cbn [window mainLoop threads].
    rewrite (onSaved_eq _ d) by (by destruct w).
    rewrite list_lookup_middle by done. by destruct w.
  - rewrite (step_save_ok _ _ _ _ _ _ d bytes Hd0 Hs).
    rewrite step_emit_saved. cbn [app].
    rewrite deliver_head, step_clear_flag. cbn [window mainLoop threads].
    rewrite (onSaved_eq _ d) by (by destruct w).
    rewrite list_lookup_middle by done. by destruct w.
  - rewrite (step_save_fails _ _ _ _ _ _ d Hd0 Hs).
    rewrite step_catch, step_clear_flag. cbn [app].
    rewrite deliver_head. cbn [window mainLoop threads].
    rewrite (onSavingFailed_eq _ d) by (by destruct w).
    rewrite list_lookup_middle by done.
    destruct w. cbn. by rewrite <- app_assoc.
  - rewrite (step_save_fails _ _ _ _ _ _ d Hd0 Hs).
    rewrite step_catch. cbn [app].
    rewrite deliver_head, step_clear_flag. cbn [window mainLoop threads].
    rewrite (onSavingFailed_eq _ d) by (by destruct w).
    rewrite list_lookup_middle by done.
    destruct w. cbn. by rewrite <- app_assoc.
Qed.

Lemma chromeSound_exec e s :
  chromeSound (window s) -> chromeSound (window (exec e s)).
Proof.
  intros H. unfold exec. destruct (destroyed s); [done|].
  destruct e as [a chosen|sel| | |mx w h|mx|i].
  - unfold activate. destruct (enabled a (window s)); [|done].
    destruct a; cbn [handler]; unfold onWindow, with_window; cbn [window];
      try (by apply chromeSound_editDocument).
    + unfold onOpenAction. destruct chosen as [file|]; [|done].
      by apply chromeSound_tryOpenDocument.
    + unfold onSaveAction. destruct chosen as [file|]; [|done].
      unfold trySaveDocument, with_threads, with_window. cbn [window].
      rewrite disableEditingActions_eq. by destruct (window s).
    + by apply chromeSound_historyStep_undo.
    + by apply chromeSound_historyStep_redo.
    + apply chromeSound_onSelectedPagesChanged. by destruct (window s).
    + by destruct (window s).
    + by destruct (window s).
  - unfold onWindow, with_window. cbn [window].
    apply chromeSound_onSelectedPagesChanged. by destruct (window s).
  - unfold deliver. destruct (mainLoop s) as [|[] q]; [done| |];
      unfold onWindow, with_window, with_mainLoop; cbn [window].
    + unfold onSaved. apply chromeSound_enableEditingActions.
      by destruct (window s).
    + unfold onSavingFailed.
      assert (chromeSound
                (enableEditingActions (with_savingRevealer Hidden (window s))))
        as Hs
        by (apply chromeSound_enableEditingActions; by destruct (window s)).
      by destruct (enableEditingActions _).
  - unfold deleteEvent. by destruct (on_delete_event (window s)).
  - unfold onWindow, with_window, onSizeAllocate. cbn [window].
    destruct mx; [done|]. by destruct (window s).
  - unfold onWindow, with_window. cbn [window]. by destruct (window s).
  - rewrite (workerStep_window i s). by destruct (window s).
Qed.

Lemma chromeSound_run es : forall s,
  chromeSound (window s) -> chromeSound (window (run es s)).
Proof.
  unfold run. induction es as [|e es IH]; intros s H; cbn [foldl]; [done|].
  apply IH. by apply chromeSound_exec.
Qed.

Lemma historySound_exec e s :
  historySound (window s) -> historySound (window (exec e s)).
Proof.
  intros H. unfold exec. destruct (destroyed s); [done|].
  destruct e as [a chosen|sel| | |mx w h|mx|i].
  - unfold activate. destruct (enabled a (window s)) eqn:Hen; [|done].
    destruct a; cbn [handler]; unfold onWindow, with_window; cbn [window].
    + unfold onOpenAction. destruct chosen as [file|]; [|done].
      by apply historySound_tryOpenDocument.
    + unfold onSaveAction. destruct chosen as [file|]; [|done].
      unfold trySaveDocument, with_threads, with_window. cbn [window].
      rewrite disableEditingActions_eq. destruct H as [Hr H].
      destruct (window s) as [doc flag ws [] sel zoom st sub rev pres lg rs].
      split; [done|]. cbn. by destruct doc.
    + by apply historySound_onUndoAction.
    + by apply historySound_onRedoAction.
    + by apply historySound_editDocument.
    + by apply historySound_editDocument.
    + by apply historySound_editDocument.
    + by apply historySound_editDocument.
    + by apply historySound_editDocument.
    + by apply historySound_editDocument.
    + apply historySound_onSelectedPagesChanged. by destruct (window s).
    + by destruct (window s).
    + by destruct (window s).
  - unfold onWindow, with_window. cbn [window].
    apply historySound_onSelectedPagesChanged. by destruct (window s).
  - unfold deliver. destruct (mainLoop s) as [|[] q]; [done| |];
      unfold onWindow, with_window, with_mainLoop; cbn [window].
    + unfold onSaved. apply historySound_enableEditingActions.
      by destruct (window s).
    + unfold onSavingFailed.
      assert (historySound
                (enableEditingActions (with_savingRevealer Hidden (window s))))
        as Hs
        by (apply historySound_enableEditingActions; by destruct (window s)).
      by destruct (enableEditingActions _).
  - unfold deleteEvent. by destruct (on_delete_event (window s)).
  - unfold onWindow, with_window, onSizeAllocate. cbn [window].
    destruct mx; [done|]. by destruct (window s).
  - unfold onWindow, with_window. cbn [window]. by destruct (window s).
  - rewrite (workerStep_window i s). by destruct (window s).
Qed.

Lemma historySound_run es : forall s,
  historySound (window s) -> historySound (window (run es s)).
Proof.
  unfold run. induction es as [|e es IH]; intros s H; cbn [foldl]; [done|].
  apply IH. by apply historySound_exec.
Qed.

End WithCodec.
End SessionFacts.

(** ** Further properties of the code *)

Import Backend Settings App BackendNotions AppNotions BackendFacts AppFacts.
Import SessionNotions SessionFacts.

(** X1: what saveWindowState writes, loadWindowState reads back, whenever the
    key file's codec reads back the three values it printed. *)
Theorem X1_window_state_round_trip
        `{codec : KeyFileCodec} (ws : WindowState) (sm : SettingsManager) :
  readsBack ws -> loadWindowState (saveWindowState ws sm) = ws.
Proof. apply loadWindowState_saveWindowState. Qed.

Lemma X1_witness :
  @loadWindowState sampleCodec
    (@saveWindowState sampleCodec (mkWindowState 1024 768 true)
                      (loadConfigFile None))
  = mkWindowState 1024 768 true.
Proof.
  apply (@X1_window_state_round_trip sampleCodec).
  repeat split; vm_compute; reflexivity.
Defined.

(** X2: saveWindowState writes its three keys and no other: any other entry
    of the key file is left as it was, and of two saves in a row the second
    is all that remains. *)
Theorem X2_saveWindowState_touches_only_its_keys
        `{codec : KeyFileCodec} (ws1 ws2 : WindowState) (sm : SettingsManager)
        (k : string * string) :
  (k ∉ windowStateKeys ->
   m_keyFile (saveWindowState ws1 sm) !! k = m_keyFile sm !! k) /\
  saveWindowState ws2 (saveWindowState ws1 sm) = saveWindowState ws2 sm.
Proof.
  split; [apply saveWindowState_lookup_other | apply saveWindowState_twice].
Qed.

Lemma X2_witness :
  let sm := mkSettingsManager
              {[ ("recent"%string, "file"%string) := "a.pdf"%string ]} in
  m_keyFile (@saveWindowState sampleCodec defaultWindowState sm)
    !! ("recent"%string, "file"%string)
  = m_keyFile sm !! ("recent"%string, "file"%string).
Proof.
  intros sm.
  apply (proj1 (@X2_saveWindowState_touches_only_its_keys sampleCodec
                  defaultWindowState defaultWindowState sm
                  ("recent"%string, "file"%string))).
  vm_compute. intros H. repeat (apply elem_of_cons in H as [H|H]; [discriminate H|]).
  by apply elem_of_nil in H.
Defined.

(** X3: closing the window while no save runs destroys it, and the window
    state it held is what its destructor leaves in the settings: a window
    constructed from them starts with that state. *)
Theorem X3_close_persists_window_state `{codec : KeyFileCodec} (s : System) :
  destroyed s = false ->
  m_isSavingDocument (window s) = false ->
  readsBack (m_windowState (window s)) ->
  let s' := exec DeleteEvent s in
  destroyed s' = true /\
  loadWindowState (settings s') = m_windowState (window s) /\
  m_windowState (newAppWindow (settings s')) = m_windowState (window s).
Proof.
  intros Hd Hf Hr. unfold exec, deleteEvent, on_delete_event.
  rewrite Hd, Hf. cbn [destroyed settings newAppWindow m_windowState].
  by rewrite loadWindowState_saveWindowState.
Qed.

Lemma X3_witness :
  let s := @run sampleCodec [SizeAllocate false 900 700] edited in
  let s' := @exec sampleCodec DeleteEvent s in
  destroyed s' = true /\
  @loadWindowState sampleCodec (settings s') = m_windowState (window s) /\
  m_windowState (@newAppWindow sampleCodec (settings s'))
  = m_windowState (window s).
Proof.
  apply (@X3_close_persists_window_state sampleCodec).
  - vm_compute. reflexivity.
  - vm_compute. reflexivity.
  - repeat split; vm_compute; reflexivity.
Defined.

(** X4: the remembered width and height change only on a size allocation
    made while the window is not maximized, which sets them, and the
    remembered maximized flag only on a window-state event: whatever else
    happens, they stay. *)
Theorem X4_remembered_geometry
        `{codec : KeyFileCodec} (es : list Event) (s : System) :
  (Forall (fun e => ~ resizes e) es ->
   width (m_windowState (window (run es s)))
   = width (m_windowState (window s)) /\
   height (m_windowState (window (run es s)))
   = height (m_windowState (window s))) /\
  (Forall (fun e => ~ changesMaximized e) es ->
   isMaximized (m_windowState (window (run es s)))
   = isMaximized (m_windowState (window s))) /\
  (forall w h,
      destroyed s = false ->
      m_windowState (window (exec (SizeAllocate false w h) s))
      = mkWindowState w h (isMaximized (m_windowState (window s)))).
Proof.
  split; [|split].
  - revert s. unfold run.
    induction es as [|e es IH]; intros s Hes; cbn [foldl]; [done|].
    apply Forall_cons in Hes as [He Hes].
    destruct (IH (exec e s) Hes) as [-> ->].
    by apply (proj1 (exec_windowState e s)).
  - revert s. unfold run.
    induction es as [|e es IH]; intros s Hes; cbn [foldl]; [done|].
    apply Forall_cons in Hes as [He Hes].
    rewrite (IH (exec e s) Hes).
    by apply (proj2 (exec_windowState e s)).
  - intros w h Hd. unfold exec. rewrite Hd.
    unfold onWindow, with_window, onSizeAllocate. cbn [window].
    by destruct (window s).
Qed.

Lemma X4_witness :
  let es := [WindowStateEvent true; SizeAllocate true 1920 1080;
             Activate RotateRightAction None; WindowStateEvent false] in
  width (m_windowState (window (@run sampleCodec es edited)))
  = width (m_windowState (window edited)) /\
  height (m_windowState (window (@run sampleCodec es edited)))
  = height (m_windowState (window edited)).
Proof.
  apply (proj1 (@X4_remembered_geometry sampleCodec _ edited)).
  repeat constructor; exact id.
Defined.

(** X5: in every run from start-up no handler faults, and undo and redo are
    enabled only when the open document can undo and redo (never without a
    document), so that activating them never meets an empty history. *)
Theorem X5_undo_redo_offered_only_when_possible
        `{codec : KeyFileCodec} (onDisk : option KeyFile) (es : list Event) :
  let w := window (run es (initial onDisk)) in
  raised w = [] /\
  (forall d,
      m_document w = Some d ->
      (enabled UndoAction w = true -> canUndo d = true) /\
      (enabled RedoAction w = true -> canRedo d = true)) /\
  (m_document w = None ->
   enabled UndoAction w = false /\ enabled RedoAction w = false).
Proof.
  intros w.
  assert (H : historySound w)
    by (apply historySound_run; unfold historySound; by cbn).
  destruct H as [Hr H]. split; [done|]. unfold enabled. cbn [get_enabled].
  split.
  - intros d Hd. by rewrite Hd in H.
  - intros Hd. by rewrite Hd in H.
Qed.

Lemma X5_witness :
  raised
    (window (@run sampleCodec
                  [Activate OpenAction (Some threePages);
                   SelectionChanged [0%nat]; Activate RotateRightAction None;
                   Activate UndoAction None; Activate UndoAction None]
                  (@initial sampleCodec None)))
  = [].
Proof.
  apply (@X5_undo_redo_offered_only_when_possible sampleCodec None
           [Activate OpenAction (Some threePages); SelectionChanged [0%nat];
            Activate RotateRightAction None;
            Activate UndoAction None; Activate UndoAction None]).
Defined.

(** X6: in every run from start-up a document, once set, stays set; as long
    as none is set, save-document is disabled, no save thread exists and no
    signal is pending, so a save thread always finds a document to save. *)
Theorem X6_no_save_without_document
        `{codec : KeyFileCodec} (onDisk : option KeyFile) (es : list Event)
        (e : Event) :
  let s := run es (initial onDisk) in
  (m_document (window s) = None ->
   enabled SaveAction (window s) = false /\
   threads s = [] /\ mainLoop s = []) /\
  (is_Some (m_document (window s)) ->
   is_Some (m_document (window (exec e s)))).
Proof.
  intros s. split; [|apply exec_keeps_document].
  assert (H : documentGuard s) by (by apply documentGuard_run).
  exact H.
Qed.

Lemma X6_witness :
  let s := @run sampleCodec
                [Activate SaveAction (Some destination);
                 SelectionChanged [0%nat]; Activate OpenAction (Some corrupt)]
                (@initial sampleCodec None) in
  enabled SaveAction (window s) = false /\ threads s = [] /\ mainLoop s = [].
Proof.
  apply (proj1 (@X6_no_save_without_document sampleCodec None
                  [Activate SaveAction (Some destination);
                   SelectionChanged [0%nat];
                   Activate OpenAction (Some corrupt)] Deliver)).
  vm_compute. reflexivity.
Defined.

(** X7: in every run from start-up, whenever m_isSavingDocument is set some
    save thread has not yet run to its end, where it clears the flag: the
    window is never left refusing to close with no thread to release it. *)
Theorem X7_saving_flag_has_thread
        `{codec : KeyFileCodec} (onDisk : option KeyFile) (es : list Event) :
  let s := run es (initial onDisk) in
  m_isSavingDocument (window s) = true ->
  exists i t, threads s !! i = Some t /\ w_pc t <> Finished.
Proof.
  intros s.
  assert (H : savingHasThread s) by (by apply savingHasThread_run).
  exact H.
Qed.

Lemma X7_witness :
  let s := @run sampleCodec
                [Activate OpenAction (Some threePages);
                 Activate SaveAction (Some destination); WorkerStep 0]
                (@initial sampleCodec None) in
  exists i t, threads s !! i = Some t /\ w_pc t <> Finished.
Proof.
  apply (@X7_saving_flag_has_thread sampleCodec None
           [Activate OpenAction (Some threePages);
            Activate SaveAction (Some destination); WorkerStep 0]).
  vm_compute. reflexivity.
Defined.

(** X8: with the page at index i the one selected, remove-previous leaves the
    pages from i on and remove-next the pages up to and including i; at the
    first page, and at the last, nothing is removed. *)
Theorem X8_remove_previous_next_pages (w : AppWindow) (i : nat) :
  m_view_selected w = [i] ->
  shownPages (onRemovePreviousPages w) = drop i (shownPages w) /\
  shownPages (onRemoveNextPages w) = take (S i) (shownPages w).
Proof.
  intros Hsel.
  unfold onRemovePreviousPages, onRemoveNextPages, removePageRange,
    previousPagesRange, nextPagesRange, getSelectedChildIndex.
  rewrite Hsel. cbn [fst snd]. rewrite !shownPages_editDocument.
  cbn [construct apply]. split.
  - rewrite survivors_previous. by rewrite Nat.sub_0_r.
  - rewrite survivors_next.
    + by rewrite Nat.sub_0_r.
    + unfold numberOfPages, shownPages. destruct (m_document w); cbn; lia.
Qed.

Lemma X8_witness :
  let w := with_selected [1%nat] (window edited) in
  shownPages (onRemovePreviousPages w) = drop 1 (shownPages w) /\
  shownPages (onRemoveNextPages w) = take 2 (shownPages w).
Proof.
  apply (X8_remove_previous_next_pages
           (with_selected [1%nat] (window edited)) 1).
  reflexivity.
Defined.

(** X9: remove-selected leaves exactly the pages at the positions that are
    not selected, and remove-unselected exactly those at the selected
    positions, both in their order; with nothing selected, or everything,
    the respective action leaves the pages as they are. *)
Theorem X9_remove_selected_unselected_pages (w : AppWindow) :
  shownPages (onRemoveSelectedPages w)
  = pagesAt (fun k => k ∉ m_view_selected w) (shownPages w) /\
  shownPages (onRemoveUnselectedPages w)
  = pagesAt (fun k => k ∈ m_view_selected w) (shownPages w).
Proof.
  unfold onRemoveSelectedPages, onRemoveUnselectedPages, removePages,
    getSelectedChildrenIndexes, getUnselectedChildrenIndexes, pagesAt.
  rewrite !shownPages_editDocument. cbn [construct apply]. split.
  - pose proof (survivors_filter (fun k => k ∉ m_view_selected w)
                  (inIndices (m_view_selected w)) (shownPages w) 0%nat) as H.
    apply H. intros j _. unfold inIndices. by rewrite bool_decide_eq_false.
  - pose proof (survivors_filter (fun k => k ∈ m_view_selected w)
                  (inIndices
                     (filter (fun i => i ∉ m_view_selected w)
                             (seq 0 (numberOfPages w))))
                  (shownPages w) 0%nat) as H.
    apply H. intros j Hj. unfold inIndices.
    rewrite bool_decide_eq_false, list_elem_of_filter, elem_of_seq.
    assert (numberOfPages w = length (shownPages w)) as ->
      by (unfold numberOfPages, shownPages; by destruct (m_document w)).
    split.
    + intros Hn. destruct (decide (j ∈ m_view_selected w)); [done|].
      exfalso. apply Hn. split; [done|lia].
    + intros Hin [Hnot _]. done.
Qed.

(** X10: a save runs to its report.  When PdfSaver succeeds the thread has
    written the document's bytes, the revealer shows that the document was
    saved, and no dialog or log line is added; when it throws nothing is
    written, the revealer is hidden, one error dialog is shown and two lines
    are logged, the second naming the destination. *)
Theorem X10_save_outcome_reported
        `{codec : KeyFileCodec} (s : System) (file : File) (d : Document)
        (es : list Event) :
  destroyed s = false -> mainLoop s = [] ->
  m_document (window s) = Some d ->
  let i := length (threads s) in
  es = [WorkerStep i; WorkerStep i; WorkerStep i; Deliver] \/
  es = [WorkerStep i; WorkerStep i; Deliver; WorkerStep i] ->
  let s' := run es (trySaveDocument file s) in
  match save d file with
  | Some bytes =>
      writtenBy i s' = Some bytes /\
      m_savingRevealer (window s') = RevealSaved /\
      presented (window s') = presented (window s) /\
      logged (window s') = logged (window s)
  | None =>
      writtenBy i s' = None /\
      m_savingRevealer (window s') = Hidden /\
      presented (window s')
      = presented (window s)
        ++ [ErrorDialog "The current document could not be saved"] /\
      logged (window s')
      = logged (window s)
        ++ ["Saving the document failed";
            "The destination file was: " +:+ file_path file]
  end.
Proof. apply save_outcome. Qed.

Lemma X10_witness :
  let s' := @run sampleCodec
                 [WorkerStep 0; WorkerStep 0; WorkerStep 0; Deliver]
                 (trySaveDocument readOnly edited) in
  writtenBy 0 s' = None /\
  m_savingRevealer (window s') = Hidden /\
  presented (window s')
  = presented (window edited)
    ++ [ErrorDialog "The current document could not be saved"] /\
  logged (window s')
  = logged (window edited)
    ++ ["Saving the document failed";
        "The destination file was: " +:+ file_path readOnly].
Proof.
  apply (@X10_save_outcome_reported sampleCodec edited readOnly
           (mkDocument
              [mkPage 0 Deg90 false; mkPage 1 Deg0 false; mkPage 2 Deg0 false]
              (mkHistory [RotatePagesRight [0%nat]] []) "three.pdf")
           [WorkerStep 0; WorkerStep 0; WorkerStep 0; Deliver]).
  - vm_compute. reflexivity.
  - vm_compute. reflexivity.
  - vm_compute. reflexivity.
  - left. vm_compute. reflexivity.
Defined.

(** X11: onSelectedPagesChanged enables remove-selected, remove-unselected,
    rotate-right, rotate-left and cancel-selection exactly when at least one
    page is selected; it leaves open, save, undo and redo as they were and
    touches nothing but the action flags; running it again changes nothing. *)
Theorem X11_selection_actions (w : AppWindow) (a : Action) :
  let w' := onSelectedPagesChanged w in
  (a ∈ [RemoveSelectedAction; RemoveUnselectedAction; RotateRightAction;
        RotateLeftAction; CancelSelectionAction] ->
   (enabled a w' = true <-> m_view_selected w <> [])) /\
  (a ∈ [OpenAction; SaveAction; UndoAction; RedoAction] ->
   enabled a w' = enabled a w) /\
  w' = with_actions (m_actions w') w /\
  onSelectedPagesChanged w' = w'.
Proof.
  intros w'. unfold w'. rewrite !onSelectedPagesChanged_eq.
  destruct w as [doc flag ws [] sel zoom st sub rev pres lg rs].
  unfold enabled, numberOfPages. cbn.
  split; [|split; [|split]].
  - intros Ha.
    repeat (apply elem_of_cons in Ha as [->|Ha];
            [cbn; by destruct sel as [|i [|j l]]|]).
    by apply elem_of_nil in Ha.
  - intros Ha.
    repeat (apply elem_of_cons in Ha as [->|Ha]; [done|]).
    by apply elem_of_nil in Ha.
  - done.
  - by destruct sel as [|i [|j l]].
Qed.

Lemma X11_witness :
  let w' := onSelectedPagesChanged (with_selected [] (window edited)) in
  enabled RotateRightAction w' = true <->
  m_view_selected (with_selected [] (window edited)) <> [].
Proof.
  apply (proj1 (X11_selection_actions (with_selected [] (window edited))
                  RotateRightAction)).
  vm_compute. do 2 right. left.
Defined.

(** X12: in every run from start-up the header and the stack say what is
    open: with a document set, the editor is shown, the subtitle is the
    document's basename and zoom is enabled, through every edit, undo, redo,
    save and failed open; with none, the welcome screen is shown. *)
Theorem X12_header_names_the_open_document
        `{codec : KeyFileCodec} (onDisk : option KeyFile) (es : list Event) :
  let w := window (run es (initial onDisk)) in
  (forall d,
      m_document w = Some d ->
      m_stack w = "editor"%string /\
      m_headerBar_subtitle w = basename d /\
      m_zoomLevel_enabled w = true) /\
  (m_document w = None ->
   m_stack w = "welcome"%string /\
   m_headerBar_subtitle w = ""%string /\
   m_zoomLevel_enabled w = false).
Proof.
  intros w.
  assert (H : chromeSound w)
    by (apply chromeSound_run; unfold chromeSound; by cbn).
  unfold chromeSound in H. split.
  - intros d Hd. by rewrite Hd in H.
  - intros Hd. by rewrite Hd in H.
Qed.

Lemma X12_witness :
  let w := window (@run sampleCodec
                        [Activate OpenAction (Some corrupt);
                         SelectionChanged [0%nat]]
                        (@initial sampleCodec None)) in
  m_stack w = "welcome"%string /\
  m_headerBar_subtitle w = ""%string /\
  m_zoomLevel_enabled w = false.
Proof.
  apply (proj2 (@X12_header_names_the_open_document sampleCodec None
                  [Activate OpenAction (Some corrupt);
                   SelectionChanged [0%nat]])).
  vm_compute. reflexivity.
Defined.
